(** * ping-sweepv2: a shallow embedding of [ping_sweepv2.py]

    The development models the sweep engine of [ping_sweepv2.py]:
    - the Python string primitives the program and its address library use;
    - the part of the standard [ipaddress] module behind
      [ipaddress.ip_network(cidr, strict=False)] and [net.hosts()];
    - [get_ping_command], [ping_once], [sweep_network] and [main];
    - the worker pool of [concurrent.futures.ThreadPoolExecutor] together
      with [as_completed], as an interleaving machine driven by a schedule.

    Python [int] is [Z]; Python [str] is [string] (code points below 256);
    exceptions are values of [exception] carried by [result]. *)

From Stdlib Require Import ZArith String Ascii DecimalString HexadecimalString.
From Stdlib Require Import DecimalPos DecimalFacts.
From stdpp Require Import gmap strings list sorting.

Local Open Scope string_scope.
Local Open Scope Z_scope.
Local Open Scope list_scope.

(** ** Exceptions and fallible computations *)

(** The exception classes that occur.  [AddressValueError] and
    [NetmaskValueError] are subclasses of [ValueError]; every class listed
    here derives from [Exception], and [OtherException] stands for any
    further class that does (a probe runs in a worker thread and raises
    nothing else).  Messages of the address library are not kept. *)
Inductive exception : Type :=
| ValueError (msg : string)
| AddressValueError
| NetmaskValueError
| RuntimeError (msg : string)
| FileNotFoundError
| PermissionError
| OSError (msg : string)
| SubprocessError (msg : string)
| OtherException (class_name msg : string).

Inductive result (A : Type) : Type :=
| Return (a : A)
| Raise (e : exception).
Arguments Return {A} a.
Arguments Raise {A} e.

#[global] Instance result_ret : MRet result := fun A a => Return a.
#[global] Instance result_bind : MBind result := fun A B f m =>
  match m with
  | Return a => f a
  | Raise e => Raise e
  end.

(** ** Python string primitives *)

Module PyStr.

(** [s.split(sep)] for a one-character separator: never the empty list. *)
Fixpoint split (sep : ascii) (s : string) : list string :=
  match s with
  | EmptyString => [EmptyString]
  | String c rest =>
      if Ascii.eqb c sep then EmptyString :: split sep rest
      else match split sep rest with
           | [] => [String c EmptyString]
           | w :: ws => String c w :: ws
           end
  end.

(** [s.partition(sep)]: the text before the first [sep], whether [sep] was
    found, the text after it. *)
Fixpoint partition (sep : ascii) (s : string) : string * bool * string :=
  match s with
  | EmptyString => (EmptyString, false, EmptyString)
  | String c rest =>
      if Ascii.eqb c sep then (EmptyString, true, rest)
      else let '(a, found, b) := partition sep rest in (String c a, found, b)
  end.

(** [sep in s] for a one-character [sep]. *)
Fixpoint contains (sep : ascii) (s : string) : bool :=
  match s with
  | EmptyString => false
  | String c rest => Ascii.eqb c sep || contains sep rest
  end.

(** [sep.join(l)]. *)
Definition join (sep : string) (l : list string) : string := String.concat sep l.

Definition chars (s : string) : list ascii := list_ascii_of_string s.

Definition is_digit (c : ascii) : bool :=
  (48 <=? Z.of_N (N_of_ascii c)) && (Z.of_N (N_of_ascii c) <=? 57).

(** [s.isascii() and s.isdigit()]: non-empty and made of 0-9 only. *)
Definition isascii_isdigit (s : string) : bool :=
  negb (String.eqb s "") && forallb is_digit (chars s).

Definition hex_value (c : ascii) : option Z :=
  let n := Z.of_N (N_of_ascii c) in
  if (48 <=? n) && (n <=? 57) then Some (n - 48)
  else if (97 <=? n) && (n <=? 102) then Some (n - 87)
  else if (65 <=? n) && (n <=? 70) then Some (n - 55)
  else None.

(** Membership in [frozenset('0123456789ABCDEFabcdef')]. *)
Definition is_hex_digit (c : ascii) : bool :=
  match hex_value c with Some _ => true | None => false end.

(** The default of [sys.get_int_max_str_digits()]: [int(s)] raises
    [ValueError] on a longer decimal literal. *)
Definition int_max_str_digits : Z := 4300.

(** [int(s, 10)] on a string of decimal digits. *)
Definition int10 (s : string) : result Z :=
  if negb (isascii_isdigit s) then Raise (ValueError "invalid literal for int()")
  else if int_max_str_digits <? Z.of_nat (String.length s)
  then Raise (ValueError "Exceeds the limit for integer string conversion")
  else Return (fold_left (fun acc c => acc * 10 + (Z.of_N (N_of_ascii c) - 48))
                         (chars s) 0).

(** [int(s, 16)] on a string of hexadecimal digits (the callers check the
    characters first, so prefixes, signs and underscores do not occur). *)
Definition int16 (s : string) : result Z :=
  if String.eqb s "" then Raise (ValueError "invalid literal for int()")
  else
    fold_left (fun acc c =>
                 a ← acc;
                 match hex_value c with
                 | Some d => Return (a * 16 + d)
                 | None => Raise (ValueError "invalid literal for int()")
                 end)
              (chars s) (Return 0).

(** The decimal text of an integer, with a minus sign when negative. *)
Definition decimal (n : Z) : string :=
  DecimalString.NilZero.string_of_int (Z.to_int n).

(** [str(n)] for an integer: the decimal text, or [ValueError] when it has
    more than [sys.get_int_max_str_digits()] digits (the sign not counted). *)
Definition str (n : Z) : result string :=
  if int_max_str_digits <? Z.of_nat (String.length (decimal (Z.abs n)))
  then Raise (ValueError ("Exceeds the limit (4300 digits) for integer string "
                          +:+ "conversion; use sys.set_int_max_str_digits() "
                          +:+ "to increase the limit"))
  else Return (decimal n).

(** [repr(s)] for a string of code points below 256: single quotes unless
    the string holds a single and no double quote; the quote, the
    backslash, tab, newline and carriage return are escaped, and so are
    the characters Python does not count as printable. *)
Definition double_quote : ascii := ascii_of_nat 34.

Definition is_printable (c : ascii) : bool :=
  let n := Z.of_N (N_of_ascii c) in
  ((32 <=? n) && (n <=? 126)) || ((161 <=? n) && negb (n =? 173)).

Definition hex_digit_char (d : Z) : ascii :=
  ascii_of_N (Z.to_N (if d <? 10 then 48 + d else 87 + d)).

Definition backslash : ascii := ascii_of_nat 92.

Definition repr_char (quote c : ascii) : string :=
  let n := Z.of_N (N_of_ascii c) in
  if Ascii.eqb c quote || Ascii.eqb c backslash then String backslash (String c "")
  else if n =? 9 then String backslash "t"
  else if n =? 10 then String backslash "n"
  else if n =? 13 then String backslash "r"
  else if is_printable c then String c ""
  else String backslash
         (String "x" (String (hex_digit_char (n / 16))
                             (String (hex_digit_char (n mod 16)) ""))).

Definition repr (s : string) : string :=
  let quote := if contains "'" s && negb (contains double_quote s)
               then double_quote else "'"%char in
  String quote (String.concat "" (repr_char quote <$> chars s))
  +:+ String quote "".

(** ['%x' % n] for [0 <= n]. *)
Definition hex (n : Z) : string :=
  HexadecimalString.NilZero.string_of_uint (N.to_hex_uint (Z.to_N n)).

(** ['%032x' % n] for [0 <= n < 2^128]: left-padded with zeros to width 32. *)
Definition hex032 (n : Z) : string :=
  let h := hex n in
  String.concat "" (replicate (32 - String.length h)%nat "0") +:+ h.

(** [range(a, b)]. *)
Definition range (a b : Z) : list Z :=
  (fun i => a + Z.of_nat i) <$> seq 0 (Z.to_nat (b - a)).

End PyStr.

(** ** The [ipaddress] module, as far as [ip_network(.., strict=False)],
    [hosts()] and [str()] of an address go *)

Module ipaddress.
Import PyStr.

Inductive version : Type := V4 | V6.

#[global] Instance version_eq_dec : EqDecision version.
Proof. solve_decision. Defined.

Definition IPV4LENGTH : Z := 32.
Definition IPV6LENGTH : Z := 128.

Definition _max_prefixlen (v : version) : Z :=
  match v with V4 => IPV4LENGTH | V6 => IPV6LENGTH end.

Definition _ALL_ONES (v : version) : Z := 2 ^ _max_prefixlen v - 1.

Definition _HEXTET_COUNT : Z := 8.

(** An [IPv4Address] or [IPv6Address] object: its class, [_ip] and, for
    IPv6, [_scope_id]. *)
Record address : Type := Address {
  addr_version : version;
  _ip : Z;
  _scope_id : option string
}.

(** The second component of [_split_addr_prefix]: the text after the
    slash, or the integer [_max_prefixlen] when there is no slash. *)
Inductive mask_arg : Type :=
| MaskStr (s : string)
| MaskInt (n : Z).

Definition _split_optional_netmask (address : string) : result (list string) :=
  let addr := split "/" address in
  if (2 <? length addr)%nat then Raise AddressValueError else Return addr.

Definition _split_addr_prefix (v : version) (address : string)
  : result (string * mask_arg) :=
  parts ← _split_optional_netmask address;
  match parts with
  | [a] => Return (a, MaskInt (_max_prefixlen v))
  | a :: m :: _ => Return (a, MaskStr m)
  | [] => Return ("", MaskInt (_max_prefixlen v))
  end.

(** *** IPv4 text *)

Definition _parse_octet (octet_str : string) : result Z :=
  if String.eqb octet_str "" then Raise (ValueError "Empty octet not permitted")
  else if negb (isascii_isdigit octet_str)
  then Raise (ValueError "Only decimal digits permitted")
  else if (3 <? String.length octet_str)%nat
  then Raise (ValueError "At most 3 characters permitted")
  else if negb (String.eqb octet_str "0")
          && bool_decide (String.get 0 octet_str = Some "0"%char)
  then Raise (ValueError "Leading zeros are not permitted")
  else
    octet_int ← int10 octet_str;
    if 255 <? octet_int then Raise (ValueError "Octet (> 255) not permitted")
    else Return octet_int.

(** [int.from_bytes(map(f, l), 'big')], stopping at the first exception. *)
Fixpoint from_bytes_big (f : string -> result Z) (l : list string) (acc : Z)
  : result Z :=
  match l with
  | [] => Return acc
  | x :: rest => b ← f x; from_bytes_big f rest (acc * 256 + b)
  end.

Definition v4_ip_int_from_string (ip_str : string) : result Z :=
  if String.eqb ip_str "" then Raise AddressValueError
  else
    let octets := split "." ip_str in
    if negb (length octets =? 4)%nat then Raise AddressValueError
    else match from_bytes_big _parse_octet octets 0 with
         | Return n => Return n
         | Raise (ValueError _) | Raise AddressValueError
         | Raise NetmaskValueError => Raise AddressValueError
         | Raise e => Raise e
         end.

(** [IPv4Address(addr_str)] for a string argument. *)
Definition IPv4Address (addr_str : string) : result address :=
  if contains "/" addr_str then Raise AddressValueError
  else ip ← v4_ip_int_from_string addr_str; Return (Address V4 ip None).

(** ['.'.join(map(str, ip_int.to_bytes(4, 'big')))]: [str] of a byte is
    its decimal text, far below the digit limit of [str]. *)
Definition v4_string_from_ip_int (ip_int : Z) : string :=
  join "." (decimal <$> [Z.land (Z.shiftr ip_int 24) 255;
                     Z.land (Z.shiftr ip_int 16) 255;
                     Z.land (Z.shiftr ip_int 8) 255;
                     Z.land ip_int 255]).

(** *** IPv6 text *)

Definition _parse_hextet (hextet_str : string) : result Z :=
  if negb (forallb is_hex_digit (chars hextet_str))
  then Raise (ValueError "Only hex digits permitted")
  else if (4 <? String.length hextet_str)%nat
  then Raise (ValueError "At most 4 characters permitted")
  else int16 hextet_str.

(** The loop looking for the one empty part strictly inside [parts]:
    [idx] ranges over [range(1, len(parts) - 1)]. *)
Fixpoint find_skip_index (parts : list string) (idx : list nat)
    (skip_index : option nat) : result (option nat) :=
  match idx with
  | [] => Return skip_index
  | i :: rest =>
      if bool_decide (parts !! i = Some "")
      then match skip_index with
           | Some _ => Raise AddressValueError
           | None => find_skip_index parts rest (Some i)
           end
      else find_skip_index parts rest skip_index
  end.

(** [for p in ps: ip_int <<= 16; ip_int |= _parse_hextet(p)]. *)
Fixpoint shift_in_hextets (ps : list string) (ip_int : Z) : result Z :=
  match ps with
  | [] => Return ip_int
  | p :: rest =>
      h ← _parse_hextet p;
      shift_in_hextets rest (Z.lor (Z.shiftl ip_int 16) h)
  end.

Definition v6_ip_int_from_string (ip_str : string) : result Z :=
  if String.eqb ip_str "" then Raise AddressValueError
  else
    let parts := split ":" ip_str in
    let _min_parts := 3%nat in
    if (length parts <? _min_parts)%nat then Raise AddressValueError
    else
      parts ← (if contains "." (List.last parts "")
               then match IPv4Address (List.last parts "") with
                    | Return a =>
                        let ipv4_int := _ip a in
                        Return (removelast parts ++
                                [hex (Z.land (Z.shiftr ipv4_int 16) 65535);
                                 hex (Z.land ipv4_int 65535)])%list
                    | Raise _ => Raise AddressValueError
                    end
               else Return parts);
      let _max_parts := _HEXTET_COUNT + 1 in
      let n := Z.of_nat (length parts) in
      if _max_parts <? n then Raise AddressValueError
      else
        skip_index ← find_skip_index parts (seq 1 (length parts - 2)) None;
        let first_empty := bool_decide (parts !! 0%nat = Some "") in
        let last_empty := bool_decide (List.last parts "" = "") in
        '(parts_hi, parts_lo, parts_skipped) ←
          match skip_index with
          | Some i =>
              let parts_hi := Z.of_nat i in
              let parts_lo := n - Z.of_nat i - 1 in
              parts_hi ← (if first_empty
                          then if (parts_hi - 1 =? 0) then Return (parts_hi - 1)
                               else Raise AddressValueError
                          else Return parts_hi);
              parts_lo ← (if last_empty
                          then if (parts_lo - 1 =? 0) then Return (parts_lo - 1)
                               else Raise AddressValueError
                          else Return parts_lo);
              let parts_skipped := _HEXTET_COUNT - (parts_hi + parts_lo) in
              if parts_skipped <? 1 then Raise AddressValueError
              else Return (parts_hi, parts_lo, parts_skipped)
          | None =>
              if negb (n =? _HEXTET_COUNT) then Raise AddressValueError
              else if first_empty then Raise AddressValueError
              else if last_empty then Raise AddressValueError
              else Return (n, 0, 0)
          end;
        match
          (ip_int ← shift_in_hextets (take (Z.to_nat parts_hi) parts) 0;
           shift_in_hextets (drop (length parts - Z.to_nat parts_lo) parts)
                            (Z.shiftl ip_int (16 * parts_skipped)))
        with
        | Return ip_int => Return ip_int
        | Raise (ValueError _) | Raise AddressValueError
        | Raise NetmaskValueError => Raise AddressValueError
        | Raise e => Raise e
        end.

Definition _split_scope_id (ip_str : string) : result (string * option string) :=
  let '(addr, sep, scope_id) := partition "%" ip_str in
  if negb sep then Return (addr, None)
  else if String.eqb scope_id "" || contains "%" scope_id
  then Raise AddressValueError
  else Return (addr, Some scope_id).

(** [IPv6Address(addr_str)] for a string argument. *)
Definition IPv6Address (addr_str : string) : result address :=
  if contains "/" addr_str then Raise AddressValueError
  else
    '(addr_str, scope_id) ← _split_scope_id addr_str;
    ip ← v6_ip_int_from_string addr_str;
    Return (Address V6 ip scope_id).

Definition IPvAddress (v : version) : string -> result address :=
  match v with V4 => IPv4Address | V6 => IPv6Address end.

(** [str(address)]. *)
Definition v6_hextets (ip_int : Z) : list string :=
  let hex_str := hex032 ip_int in
  (fun x => match int16 (String.substring x 4 hex_str) with
            | Return h => hex h
            | Raise _ => ""
            end) <$> [0; 4; 8; 12; 16; 20; 24; 28]%nat.

(** The scan of [_compress_hextets]: the start and length of the first
    longest run of ["0"] hextets.  [-1] is the "no run" start. *)
Fixpoint best_doublecolon (hextets : list string) (index : Z)
    (best_start best_len start len : Z) : Z * Z :=
  match hextets with
  | [] => (best_start, best_len)
  | hextet :: rest =>
      if String.eqb hextet "0" then
        let len := len + 1 in
        let start := if start =? -1 then index else start in
        if best_len <? len
        then best_doublecolon rest (index + 1) start len start len
        else best_doublecolon rest (index + 1) best_start best_len start len
      else best_doublecolon rest (index + 1) best_start best_len (-1) 0
  end.

Definition _compress_hextets (hextets : list string) : list string :=
  let '(best_doublecolon_start, best_doublecolon_len) :=
    best_doublecolon hextets 0 (-1) 0 (-1) 0 in
  if 1 <? best_doublecolon_len then
    let best_doublecolon_end := best_doublecolon_start + best_doublecolon_len in
    let hextets1 :=
      if best_doublecolon_end =? Z.of_nat (length hextets)
      then (hextets ++ [""])%list else hextets in
    let hextets2 :=
      (take (Z.to_nat best_doublecolon_start) hextets1 ++ [""] ++
       drop (Z.to_nat best_doublecolon_end) hextets1)%list in
    if best_doublecolon_start =? 0 then "" :: hextets2 else hextets2
  else hextets.

Definition v6_string_from_ip_int (ip_int : Z) : string :=
  join ":" (_compress_hextets (v6_hextets ip_int)).

Definition address_str (a : address) : string :=
  match addr_version a with
  | V4 => v4_string_from_ip_int (_ip a)
  | V6 =>
      let ip_str := v6_string_from_ip_int (_ip a) in
      match _scope_id a with
      | Some scope => if String.eqb scope "" then ip_str else ip_str +:+ "%" +:+ scope
      | None => ip_str
      end
  end.

(** *** Netmasks *)

(** [n.bit_length()] for [0 <= n]. *)
Definition bit_length (n : Z) : Z := if n =? 0 then 0 else Z.log2 n + 1.

Definition _count_righthand_zero_bits (number bits : Z) : Z :=
  if number =? 0 then bits
  else Z.min bits (bit_length (Z.land (Z.lnot number) (number - 1))).

Definition _ip_int_from_prefix (v : version) (prefixlen : Z) : Z :=
  Z.lxor (_ALL_ONES v) (Z.shiftr (_ALL_ONES v) prefixlen).

Definition _prefix_from_ip_int (v : version) (ip_int : Z) : result Z :=
  let trailing_zeroes := _count_righthand_zero_bits ip_int (_max_prefixlen v) in
  let prefixlen := _max_prefixlen v - trailing_zeroes in
  let leading_ones := Z.shiftr ip_int trailing_zeroes in
  let all_ones := Z.shiftl 1 prefixlen - 1 in
  if negb (leading_ones =? all_ones)
  then Raise (ValueError "Netmask pattern mixes zeroes & ones")
  else Return prefixlen.

Definition _prefix_from_prefix_string (v : version) (prefixlen_str : string)
  : result Z :=
  if negb (isascii_isdigit prefixlen_str) then Raise NetmaskValueError
  else match int10 prefixlen_str with
       | Raise _ => Raise NetmaskValueError
       | Return prefixlen =>
           if negb ((0 <=? prefixlen) && (prefixlen <=? _max_prefixlen v))
           then Raise NetmaskValueError
           else Return prefixlen
       end.

Definition _ip_int_from_string (v : version) : string -> result Z :=
  match v with V4 => v4_ip_int_from_string | V6 => v6_ip_int_from_string end.

Definition _prefix_from_ip_string (v : version) (ip_str : string) : result Z :=
  match _ip_int_from_string v ip_str with
  | Raise _ => Raise NetmaskValueError
  | Return ip_int =>
      match _prefix_from_ip_int v ip_int with
      | Return p => Return p
      | Raise _ =>
          match _prefix_from_ip_int v (Z.lxor ip_int (_ALL_ONES v)) with
          | Return p => Return p
          | Raise _ => Raise NetmaskValueError
          end
      end
  end.

(** [_make_netmask]: the pair (netmask as an integer, prefix length).  The
    class-level cache only memoises this function. *)
Definition _make_netmask (v : version) (arg : mask_arg) : result (Z * Z) :=
  prefixlen ←
    match arg with
    | MaskInt prefixlen =>
        if negb ((0 <=? prefixlen) && (prefixlen <=? _max_prefixlen v))
        then Raise NetmaskValueError else Return prefixlen
    | MaskStr s =>
        match v with
        | V4 => match _prefix_from_prefix_string V4 s with
                | Raise NetmaskValueError => _prefix_from_ip_string V4 s
                | r => r
                end
        | V6 => _prefix_from_prefix_string V6 s
        end
    end;
  Return (_ip_int_from_prefix v prefixlen, prefixlen).

(** *** Networks *)

(** An [IPv4Network] or [IPv6Network] object built with [strict=False].
    [addr_given] is the address parsed from the text before the slash,
    which the single-host [hosts] closure captures. *)
Record network : Type := Network {
  net_version : version;
  network_address : address;
  netmask : Z;
  _prefixlen : Z;
  addr_given : address
}.

Definition IPvNetwork (v : version) (address : string) : result network :=
  '(addr, mask) ← _split_addr_prefix v address;
  a ← IPvAddress v addr;
  '(nm, prefixlen) ← _make_netmask v mask;
  let packed := _ip a in
  let na := if negb (Z.land packed nm =? packed)
            then Address v (Z.land packed nm) None else a in
  Return (Network v na nm prefixlen a).

Definition hostmask (net : network) : Z :=
  Z.lxor (netmask net) (_ALL_ONES (net_version net)).

Definition broadcast_address (net : network) : address :=
  Address (net_version net)
          (Z.lor (_ip (network_address net)) (hostmask net)) None.

(** [net.hosts()]: the instance attribute set by the constructor for the
    two longest prefixes, the class method otherwise. *)
Definition hosts (net : network) : list address :=
  let v := net_version net in
  let network := _ip (network_address net) in
  let broadcast := _ip (broadcast_address net) in
  if _prefixlen net =? _max_prefixlen v - 1
  then (fun x => Address v x None) <$> range network (broadcast + 1)
  else if _prefixlen net =? _max_prefixlen v
  then [addr_given net]
  else match v with
       | V4 => (fun x => Address v x None) <$> range (network + 1) broadcast
       | V6 => (fun x => Address v x None) <$> range (network + 1) (broadcast + 1)
       end.

(** [ipaddress.ip_network(address, strict=False)]. *)
Definition ip_network (address : string) : result network :=
  match IPvNetwork V4 address with
  | Return net => Return net
  | Raise AddressValueError | Raise NetmaskValueError =>
      match IPvNetwork V6 address with
      | Return net => Return net
      | Raise AddressValueError | Raise NetmaskValueError =>
          Raise (ValueError (repr address
                             +:+ " does not appear to be an IPv4 or IPv6 network"))
      | Raise e => Raise e
      end
  | Raise e => Raise e
  end.

End ipaddress.

(** ** The program *)

(** What the program does to the outside world: log records (the call's
    level, format string and arguments, as [logging] keeps them) and
    calls of [subprocess.run]. *)
Inductive level : Type := INFO | ERROR | CRITICAL.

Inductive log_arg : Type :=
| ArgStr (s : string)
| ArgInt (n : Z)
| ArgExc (e : exception).

Record log_record : Type := Log {
  log_level : level;
  log_msg : string;
  log_args : list log_arg
}.

(** The ways [subprocess.run(cmd, ...)] ends: a child process ran and
    exited with a return code, or the call raises (for a missing
    executable, without any process having run). *)
Inductive run_outcome : Type :=
| CompletedProcess (returncode : Z)
| RunRaises (e : exception).

(** The machine the program runs on: [platform.system()] and the behaviour
    of [subprocess.run] on each command line. *)
Record environment : Type := Environment {
  platform_system : string;
  subprocess_run : list string -> run_outcome
}.

Section Program.
Context (env : environment).

Definition get_ping_command (ip : string) (timeout_ms : Z)
  : result (list string) :=
  let system := platform_system env in
  if String.eqb system "Windows"
  then
    w ← PyStr.str timeout_ms;
    Return ["ping"; "-n"; "1"; "-w"; w; ip]
  else
    let secs := Z.max 1 ((timeout_ms + 999) / 1000) in
    w ← PyStr.str secs;
    Return ["ping"; "-c"; "1"; "-W"; w; ip].

(** What one call of [ping_once] does: its value or exception, and the
    command lines it has passed to [subprocess.run], in order. *)
Record probe : Type := Probe {
  probe_value : result bool;
  probe_calls : list (list string)
}.

(** [get_ping_command] is called before the [try]: what it raises leaves
    [ping_once] as it is, and [subprocess.run] is not reached. *)
Definition ping_once (ip : string) (timeout_ms : Z) : probe :=
  match get_ping_command ip timeout_ms with
  | Raise e => Probe (Raise e) []
  | Return cmd =>
      Probe
        match subprocess_run env cmd with
        | CompletedProcess returncode => Return (returncode =? 0)
        | RunRaises FileNotFoundError =>
            Raise (RuntimeError "'ping' command not found on this system")
        | RunRaises e => Raise e
        end
        [cmd]
  end.

(** *** The worker pool and the completion loop

    A [Future] is identified by the number of futures created before it.
    A work item is the future with the argument [ip] of its call.  Every
    thread the pool asks for is taken to start: a failing [Thread.start]
    is outside the model. *)
Record sweep_state : Type := SweepState {
  (* the executor *)
  _max_workers : Z;
  _work_queue : list (nat * string);
  _idle_semaphore : nat;
  _threads : nat;
  (* work items a worker has taken off the queue and not yet run *)
  taken : list (nat * string);
  (* work items a worker thread is running: the probes in flight *)
  in_flight : list (nat * string);
  (* futures that are done and that [as_completed] has not yielded yet *)
  finished : list (nat * result bool);
  (* [sweep_network]'s locals *)
  to_submit : list string;
  submitted : nat;
  futures : gmap nat string;
  results : list (string * bool);
  (* effects: the log, and the command lines passed to [subprocess.run],
     in the order of the calls *)
  log : list log_record;
  run_calls : list (list string)
}.

(** One atomic step of one thread. *)
Inductive action : Type :=
| Submit                 (* main thread: the next [executor.submit] *)
| WorkerGet              (* an idle worker takes the head of the queue *)
| WorkerCall (fut : nat) (* the worker holding [fut] calls [ping_once] *)
| WorkerDone (fut : nat) (* the probe of [fut] returns or raises *)
| Yield (fut : nat).     (* main thread: one turn of the [as_completed] loop *)

(** Remove the first item with key [f]. *)
Fixpoint take_item {A : Type} (f : nat) (l : list (nat * A))
  : option (A * list (nat * A)) :=
  match l with
  | [] => None
  | (g, a) :: rest =>
      if decide (g = f) then Some (a, rest)
      else '(b, rest') ← take_item f rest; Some (b, (g, a) :: rest')
  end.

(** The body of the [for fut in as_completed(futures)] loop. *)
Definition loop_body (quiet : bool) (ip : string) (r : result bool)
  : (string * bool) * list log_record :=
  let '(up, errs) :=
    match r with
    | Return up => (up, [])
    | Raise exc => (false, [Log ERROR "Error pinging %s: %s" [ArgStr ip; ArgExc exc]])
    end in
  ((ip, up),
   errs ++ (if negb quiet
            then [Log INFO "%s is %s" [ArgStr ip; ArgStr (if up then "UP" else "DOWN")]]
            else []))%list.

Definition step (timeout_ms : Z) (quiet : bool) (st : sweep_state) (a : action)
  : option sweep_state :=
  let '(SweepState max_workers work_queue idle_semaphore threads held running
                   done pending n futs res lg sp) := st in
  match a with
  | Submit =>
      match pending with
      | [] => None
      | ip :: rest =>
          let f := n in
          let work_queue := (work_queue ++ [(f, ip)])%list in
          let futs := <[f := ip]> futs in
          (* _adjust_thread_count *)
          match idle_semaphore with
          | S k =>
              Some (SweepState max_workers work_queue k threads held running
                               done rest (S n) futs res lg sp)
          | O =>
              if Z.of_nat threads <? max_workers
              then Some (SweepState max_workers work_queue 0 (S threads) held
                                    running done rest (S n) futs res lg sp)
              else Some (SweepState max_workers work_queue 0 threads held
                                    running done rest (S n) futs res lg sp)
          end
      end
  | WorkerGet =>
      if decide (length held + length running < threads)%nat then
        match work_queue with
        | [] => None
        | (f, ip) :: rest =>
            Some (SweepState max_workers rest idle_semaphore threads
                             (held ++ [(f, ip)])%list running done pending n
                             futs res lg sp)
        end
      else None
  | WorkerCall f =>
      '(ip, rest) ← take_item f held;
      Some (SweepState max_workers work_queue idle_semaphore threads rest
                       (running ++ [(f, ip)])%list done pending n futs res lg
                       (sp ++ probe_calls (ping_once ip timeout_ms))%list)
  | WorkerDone f =>
      '(ip, rest) ← take_item f running;
      Some (SweepState max_workers work_queue (S idle_semaphore) threads held
                       rest
                       (done ++ [(f, probe_value (ping_once ip timeout_ms))])%list
                       pending n futs res lg sp)
  | Yield f =>
      match pending with
      | _ :: _ => None
      | [] =>
          '(r, rest) ← take_item f done;
          ip ← futs !! f;
          let '(entry, records) := loop_body quiet ip r in
          Some (SweepState max_workers work_queue idle_semaphore threads held
                           running rest pending n futs (res ++ [entry])%list
                           (lg ++ records)%list sp)
      end
  end.

(** A run of the machine under a schedule; [None] when the schedule asks
    for a step that is not enabled. *)
Definition run (timeout_ms : Z) (quiet : bool) (st : sweep_state)
    (sched : list action) : option sweep_state :=
  foldl (fun ost a => st ← ost; step timeout_ms quiet st a) (Some st) sched.

(** The loop over [as_completed(futures)] is over once every future has
    been yielded; the [with] block then joins the idle workers. *)
Definition all_yielded (st : sweep_state) : bool :=
  bool_decide (to_submit st = [] /\ _work_queue st = [] /\ taken st = [] /\
               in_flight st = [] /\ finished st = []).

Definition sweep_hosts (net : ipaddress.network) : list string :=
  ipaddress.address_str <$> ipaddress.hosts net.

Definition start_record (network_cidr : string) (hosts : list string)
    (threads : Z) : log_record :=
  Log INFO "Starting sweep of %s (%d hosts) with %d threads"
      [ArgStr network_cidr; ArgInt (Z.of_nat (length hosts)); ArgInt threads].

Definition initial_state (network_cidr : string) (hosts : list string)
    (threads : Z) : sweep_state :=
  SweepState threads [] 0 0 [] [] [] hosts 0 ∅ []
             [start_record network_cidr hosts threads] [].

(** What a call of [sweep_network] leaves behind: its value or exception,
    the log records and the command lines of its calls of
    [subprocess.run]. *)
Record sweep_outcome : Type := SweepOutcome {
  sweep_value : result (list (string * bool));
  sweep_log : list log_record;
  sweep_calls : list (list string)
}.

(** [sweep_network(network_cidr, threads, timeout_ms, quiet)] under the
    schedule [sched] of its threads.  [None]: [sched] is not a complete
    execution of this call. *)
Definition sweep_network (network_cidr : string) (threads timeout_ms : Z)
    (quiet : bool) (sched : list action) : option sweep_outcome :=
  match ipaddress.ip_network network_cidr with
  | Raise e => Some (SweepOutcome (Raise e) [] [])
  | Return net =>
      let hosts := sweep_hosts net in
      if threads <=? 0
      then Some (SweepOutcome (Raise (ValueError "max_workers must be greater than 0"))
                              [start_record network_cidr hosts threads] [])
      else
        st ← run timeout_ms quiet (initial_state network_cidr hosts threads) sched;
        if all_yielded st
        then Some (SweepOutcome (Return (results st)) (log st) (run_calls st))
        else None
  end.

(** The namespace [parse_args()] returns. *)
Record arguments : Type := Namespace {
  arg_network : string;
  arg_threads : Z;
  arg_timeout : Z;
  arg_quiet : bool
}.

(** How the process ends. *)
Inductive process_end : Type :=
| ExitNormally                 (* [main] returns: status 0 *)
| SysExit (status : Z)         (* [sys.exit(status)] *)
| Traceback (e : exception).   (* uncaught exception: status 1 *)

Definition exit_status (p : process_end) : Z :=
  match p with
  | ExitNormally => 0
  | SysExit status => status
  | Traceback _ => 1
  end.

Record main_outcome : Type := MainOutcome {
  main_end : process_end;
  main_log : list log_record;
  main_calls : list (list string)
}.

(** [main()] on parsed arguments.  The elapsed time in the last record is
    wall-clock time and is left out. *)
Definition main (args : arguments) (sched : list action) : option main_outcome :=
  out ← sweep_network (arg_network args) (Z.max 1 (arg_threads args))
                      (Z.max 1 (arg_timeout args)) (arg_quiet args) sched;
  match sweep_value out with
  | Raise (RuntimeError msg) =>
      Some (MainOutcome (SysExit 1)
                        (sweep_log out ++ [Log CRITICAL msg []])%list
                        (sweep_calls out))
  | Raise e => Some (MainOutcome (Traceback e) (sweep_log out) (sweep_calls out))
  | Return results =>
      let up_count := Z.of_nat (length (filter (fun r => snd r = true) results)) in
      let total := Z.of_nat (length results) in
      Some (MainOutcome ExitNormally
              (sweep_log out ++
               [Log INFO "Scan finished: %d/%d hosts up (%.1fs)"
                    [ArgInt up_count; ArgInt total]])%list
              (sweep_calls out))
  end.

End Program.

(** ** Notions used to state the properties *)

(** *** The bookkeeping of an execution

    [H] is the host list of the sweep and [T] its thread count. *)
Section ExecutionNotions.
Context (env : environment) (timeout_ms : Z) (quiet : bool).
Context (cidr : string) (H : list string) (T : Z).

(** The futures yielded by [as_completed] in a schedule, in order. *)
Definition yields (sched : list action) : list nat :=
  omap (fun a => match a with Yield f => Some f | _ => None end) sched.

Definition host_of (f : nat) : string := default "" (H !! f).
Definition outcome_of (f : nat) : result bool :=
  probe_value (ping_once env (host_of f) timeout_ms).
Definition entry_of (f : nat) : string * bool :=
  (loop_body quiet (host_of f) (outcome_of f)).1.
Definition records_of (f : nat) : list log_record :=
  (loop_body quiet (host_of f) (outcome_of f)).2.
Definition calls_of (f : nat) : list (list string) :=
  probe_calls (ping_once env (host_of f) timeout_ms).

(** The entry of a host in the result: the host and whether its probe
    returned [True]. *)
Definition probe_entry (ip : string) : string * bool :=
  (ip, match probe_value (ping_once env ip timeout_ms) with
       | Return up => up
       | Raise _ => false
       end).

(** What holds of the state [st] reached under the schedule [sched]. *)
Record Inv (sched : list action) (st : sweep_state) : Prop := {
  inv_max : _max_workers st = T;
  inv_pending : to_submit st = drop (submitted st) H;
  inv_submitted : (submitted st <= length H)%nat;
  inv_futures : forall f,
    futures st !! f = if decide (f < submitted st)%nat then H !! f else None;
  inv_work : Forall (fun w => H !! w.1 = Some w.2)
                    (_work_queue st ++ taken st ++ in_flight st);
  inv_done : Forall (fun d => d.2 = outcome_of d.1) (finished st);
  inv_ids :
    (_work_queue st).*1 ++ (taken st).*1 ++ (in_flight st).*1 ++
    (finished st).*1 ++ yields sched
    ≡ₚ seq 0 (submitted st);
  inv_results : results st = entry_of <$> yields sched;
  inv_log : log st = start_record cidr H T :: (yields sched ≫= records_of);
  inv_calls :
    run_calls st ≡ₚ
    ((in_flight st).*1 ++ (finished st).*1 ++ yields sched) ≫= calls_of;
  inv_cap : (length (taken st) + length (in_flight st) <= _threads st)%nat /\
            Z.of_nat (_threads st) <= T;
  inv_alive : (1 <= _threads st)%nat \/
              (_work_queue st = [] /\ taken st = [] /\ in_flight st = [] /\
               finished st = [] /\ _idle_semaphore st = 0%nat)
}.


End ExecutionNotions.

(** *** Exception classes of the address parser *)

Definition value_error (e : exception) : Prop := exists msg, e = ValueError msg.
Definition address_error (e : exception) : Prop := e = AddressValueError.
Definition netmask_error (e : exception) : Prop := e = NetmaskValueError.

(** *** The rounding of the timeout *)

(** The ceiling of [a / b], as the specification words the rounding, for
    comparison with the [(timeout_ms + 999) // 1000] of the code. *)
Definition ceil_div (a b : Z) : Z := - ((- a) / b).

(** *** Concrete inputs *)

(** The network [192.168.1.0/30], three environments and two schedules
    of a sweep over its two hosts with two threads. *)
Definition net_192_168_1_0_30 : ipaddress.network :=
  ipaddress.Network ipaddress.V4
    (ipaddress.Address ipaddress.V4 3232235776 None) 4294967292 30
    (ipaddress.Address ipaddress.V4 3232235776 None).

(** The block [192.168.1.76/30], named through one of its hosts. *)
Definition net_192_168_1_77_30 : ipaddress.network :=
  ipaddress.Network ipaddress.V4
    (ipaddress.Address ipaddress.V4 3232235852 None) 4294967292 30
    (ipaddress.Address ipaddress.V4 3232235853 None).

Definition env_all_up : environment :=
  Environment "Linux" (fun _ => CompletedProcess 0).

Definition env_no_ping : environment :=
  Environment "Linux" (fun _ => RunRaises FileNotFoundError).

Definition env_denied : environment :=
  Environment "Linux" (fun _ => RunRaises PermissionError).

Definition in_order_schedule : list action :=
  [Submit; Submit; WorkerGet; WorkerGet; WorkerCall 0; WorkerCall 1;
   WorkerDone 0; WorkerDone 1; Yield 0; Yield 1]%nat.

(** The second probe returns, and is yielded, before the first returns. *)
Definition reversed_schedule : list action :=
  [Submit; Submit; WorkerGet; WorkerGet; WorkerCall 0; WorkerCall 1;
   WorkerDone 1; Yield 1; WorkerDone 0; Yield 0]%nat.

(** The single-host network [10.0.0.5/32]. *)
Definition net_10_0_0_5_32 : ipaddress.network :=
  ipaddress.Network ipaddress.V4
    (ipaddress.Address ipaddress.V4 167772165 None) 4294967295 32
    (ipaddress.Address ipaddress.V4 167772165 None).

(** *** Log records and states, for the further properties *)

(** The record of the per-host line [logger.info("%s is %s", ...)]. *)
Definition status_record (entry : string * bool) : log_record :=
  Log INFO "%s is %s"
      [ArgStr entry.1; ArgStr (if entry.2 then "UP" else "DOWN")].

Definition is_status_record (r : log_record) : bool :=
  String.eqb (log_msg r) "%s is %s".

(** The record of [logger.error("Error pinging %s: %s", ip, exc)]. *)
Definition error_record (ip : string) (exc : exception) : log_record :=
  Log ERROR "Error pinging %s: %s" [ArgStr ip; ArgExc exc].

(** The last record of [main]. *)
Definition summary_record (up_count total : Z) : log_record :=
  Log INFO "Scan finished: %d/%d hosts up (%.1fs)" [ArgInt up_count; ArgInt total].

(** Whether the probe of a host returns [True]. *)
Definition is_up (env : environment) (timeout_ms : Z) (ip : string) : bool :=
  match probe_value (ping_once env ip timeout_ms) with
  | Return up => up
  | Raise _ => false
  end.

(** Two states that differ at most in their log. *)
Definition same_but_log (st1 st2 : sweep_state) : Prop :=
  _max_workers st1 = _max_workers st2 /\
  _work_queue st1 = _work_queue st2 /\
  _idle_semaphore st1 = _idle_semaphore st2 /\
  _threads st1 = _threads st2 /\
  taken st1 = taken st2 /\
  in_flight st1 = in_flight st2 /\
  finished st1 = finished st2 /\
  to_submit st1 = to_submit st2 /\
  submitted st1 = submitted st2 /\
  futures st1 = futures st2 /\
  results st1 = results st2 /\
  run_calls st1 = run_calls st2.

(** The network of [192.168.1.2/30]: the same block, given by one of its
    hosts. *)
Definition net_192_168_1_2_30 : ipaddress.network :=
  ipaddress.Network ipaddress.V4
    (ipaddress.Address ipaddress.V4 3232235776 None) 4294967292 30
    (ipaddress.Address ipaddress.V4 3232235778 None).

(** *** Decimal octets *)

(** The four octets of [ip_int.to_bytes(4, 'big')]. *)
Definition v4_octets (ip_int : Z) : list Z :=
  [Z.land (Z.shiftr ip_int 24) 255; Z.land (Z.shiftr ip_int 16) 255;
   Z.land (Z.shiftr ip_int 8) 255; Z.land ip_int 255].

(** The decimal text of [k] is read back as [k] by [_parse_octet] and holds
    neither a dot nor a slash. *)
Definition octet_text_ok (k : Z) : bool :=
  match ipaddress._parse_octet (PyStr.decimal k) with
  | Return r => r =? k
  | Raise _ => false
  end
  && negb (PyStr.contains "." (PyStr.decimal k))
  && negb (PyStr.contains "/" (PyStr.decimal k))
  && negb (String.eqb (PyStr.decimal k) "").

(** The text of a list of decimal digits, and the check that, when
    [_parse_octet] accepts such a text, [str] of its value is the text again
    and the value is an octet. *)
Definition digit_char (d : nat) : ascii := ascii_of_nat (48 + d).

Definition digits_text (ds : list nat) : string :=
  string_of_list_ascii (digit_char <$> ds).

Definition octet_parse_ok (ds : list nat) : bool :=
  match ipaddress._parse_octet (digits_text ds) with
  | Return k =>
      String.eqb (PyStr.decimal k) (digits_text ds) && (0 <=? k) && (k <=? 255)
  | Raise _ => true
  end.

(** All digit lists of length one, two and three. *)
Definition short_digit_lists : list (list nat) :=
  (d1 ← seq 0 10; [[d1]]) ++
  (d1 ← seq 0 10; d2 ← seq 0 10; [[d1; d2]]) ++
  (d1 ← seq 0 10; d2 ← seq 0 10; d3 ← seq 0 10; [[d1; d2; d3]]).

(** *** Netmask texts *)

(** The dotted-quad text of the netmask, and of the hostmask, of an IPv4
    prefix length. *)
Definition netmask_text (p : Z) : string :=
  ipaddress.v4_string_from_ip_int (ipaddress._ip_int_from_prefix ipaddress.V4 p).

Definition hostmask_text (p : Z) : string :=
  ipaddress.v4_string_from_ip_int
    (Z.lxor (ipaddress._ip_int_from_prefix ipaddress.V4 p)
            (ipaddress._ALL_ONES ipaddress.V4)).

(** A mask text holds no slash and [_make_netmask] reads it as the prefix
    length [p]. *)
Definition mask_text_means (m : string) (p : Z) : bool :=
  negb (PyStr.contains "/" m) &&
  match ipaddress._make_netmask ipaddress.V4 (ipaddress.MaskStr m) with
  | Return (nm, q) => (nm =? ipaddress._ip_int_from_prefix ipaddress.V4 p) && (q =? p)
  | Raise _ => false
  end.

Definition mask_texts_ok (p : Z) : bool :=
  mask_text_means (PyStr.decimal p) p &&
  mask_text_means (netmask_text p) p &&
  (if (1 <=? p) && (p <=? 31) then mask_text_means (hostmask_text p) p else true).

(** * Properties *)

(** ** The machine: what every execution preserves *)

(** Goals [l ≡ₚ k] between concatenations of the same pieces: turn every
    appended singleton into a cons and float the conses to the front. *)
Ltac float_conses :=
  rewrite <- ?Permutation_cons_append; simpl;
  rewrite <- ?app_assoc; simpl;
  rewrite <- ?Permutation_middle; simpl.

Lemma bind_Permutation_arg {A B : Type} (g : A -> list B) (l k : list A) :
  l ≡ₚ k -> l ≫= g ≡ₚ k ≫= g.
Proof. intros Hp. by rewrite Hp. Qed.

Lemma take_item_perm {A : Type} (f : nat) (l l' : list (nat * A)) (a : A) :
  take_item f l = Some (a, l') -> l ≡ₚ (f, a) :: l'.
Proof.
  revert l'. induction l as [|[g b] l IH]; intros l' Ht; simpl in Ht; [done|].
  destruct (decide (g = f)) as [->|Hne].
  - by inversion Ht.
  - destruct (take_item f l) as [[c r]|] eqn:E; simpl in Ht; [|done].
    inversion Ht; subst. rewrite (IH r eq_refl). apply Permutation_swap.
Qed.

Lemma take_item_length {A : Type} (f : nat) (l l' : list (nat * A)) (a : A) :
  take_item f l = Some (a, l') -> length l = S (length l').
Proof. intros Ht. by rewrite (take_item_perm _ _ _ _ Ht). Qed.

Lemma take_item_head {A : Type} (f : nat) (a : A) (l : list (nat * A)) :
  take_item f ((f, a) :: l) = Some (a, l).
Proof. simpl. by rewrite decide_True. Qed.

Section Executions.
Context (env : environment) (timeout_ms : Z) (quiet : bool).
Context (cidr : string) (H : list string) (T : Z).
Hypothesis threads_positive : 1 <= T.

Local Abbreviation host_of := (host_of H).
Local Abbreviation outcome_of := (outcome_of env timeout_ms H).
Local Abbreviation entry_of := (entry_of env timeout_ms quiet H).
Local Abbreviation records_of := (records_of env timeout_ms quiet H).
Local Abbreviation calls_of := (calls_of env timeout_ms H).
Local Abbreviation probe_entry := (probe_entry env timeout_ms).
Local Abbreviation Inv := (Inv env timeout_ms quiet cidr H T).

Lemma yields_snoc (sched : list action) (a : action) :
  yields (sched ++ [a]) =
  yields sched ++ match a with Yield f => [f] | _ => [] end.
Proof. unfold yields. rewrite omap_app. by destruct a. Qed.

Lemma Inv_initial : Inv [] (initial_state cidr H T).
Proof.
  split; simpl; try done.
  - lia.
  - lia.
  - right. done.
Qed.

Lemma Inv_Submit sched st st' :
  Inv sched st -> step env timeout_ms quiet st Submit = Some st' ->
  Inv (sched ++ [Submit]) st'.
Proof.
  intros [Hmax Hpend Hsub Hfut Hwork Hdone Hids Hres Hlog Hsp [Hc1 Hc2] Halive].
  destruct st as [mw q sem th held run dn pend n futs res lg sp]; simpl in *.
  destruct pend as [|ip rest]; [done|].
  assert (Hn : H !! n = Some ip).
  { rewrite <- (Nat.add_0_r n), <- lookup_drop, <- Hpend. done. }
  assert (Hrest : rest = drop (S n) H).
  { rewrite (drop_S _ _ _ Hn) in Hpend. by inversion Hpend. }
  assert (Hlt : (n < length H)%nat) by (eapply lookup_lt_Some; done).
  assert (Hcommon : forall sem' th',
    (length held + length run <= th')%nat -> Z.of_nat th' <= T ->
    ((1 <= th')%nat) ->
    Inv (sched ++ [Submit])
        (SweepState mw (q ++ [(n, ip)]) sem' th' held run dn rest (S n)
                    (<[n:=ip]> futs) res lg sp)).
  { intros sem' th' Hl1 Hl2 Hl3. split; simpl; rewrite ?yields_snoc, ?app_nil_r; try done.
    - intros f. destruct (decide (f = n)) as [->|Hne].
      + rewrite lookup_insert_eq. by rewrite decide_True by lia.
      + rewrite lookup_insert_ne by done. rewrite Hfut.
        destruct (decide (f < n)%nat), (decide (f < S n)%nat); try done; lia.
    - rewrite <- app_assoc. apply Forall_app in Hwork as [Hq Hr].
      rewrite !Forall_app. apply Forall_app in Hr as [Hh Hr].
      repeat split; try done. by constructor.
    - change (0%nat :: seq 1 n) with (seq 0 (S n)).
      rewrite fmap_app, seq_S, <- Hids. by float_conses.
    - by left. }
  destruct sem as [|k]; simpl.
  - destruct (Z.of_nat th <? mw) eqn:E; intros [= <-].
    + apply Hcommon; lia.
    + apply Hcommon; try lia.
  - intros [= <-]. apply Hcommon; lia.
Qed.

Lemma Inv_WorkerGet sched st st' :
  Inv sched st -> step env timeout_ms quiet st WorkerGet = Some st' ->
  Inv (sched ++ [WorkerGet]) st'.
Proof.
  intros [Hmax Hpend Hsub Hfut Hwork Hdone Hids Hres Hlog Hsp [Hc1 Hc2] Halive].
  destruct st as [mw q sem th held run dn pend n futs res lg sp]; simpl in *.
  destruct (decide (length held + length run < th)%nat) as [Hlt|]; [|done].
  destruct q as [|[f ip] q]; [done|]. intros [= <-].
  apply Forall_cons in Hwork as [Hf Hwork]. simpl in Hf.
  split; simpl; rewrite ?yields_snoc, ?app_nil_r; try done.
  - apply Forall_app in Hwork as [Hq Hr]. apply Forall_app in Hr as [Hh Hr].
    rewrite !Forall_app. repeat split; try done. by constructor.
  - rewrite <- Hids, fmap_app. by float_conses.
  - rewrite length_app. simpl. lia.
  - left. lia.
Qed.

Lemma Inv_WorkerCall sched st st' f :
  Inv sched st -> step env timeout_ms quiet st (WorkerCall f) = Some st' ->
  Inv (sched ++ [WorkerCall f]) st'.
Proof.
  intros [Hmax Hpend Hsub Hfut Hwork Hdone Hids Hres Hlog Hsp [Hc1 Hc2] Halive].
  destruct st as [mw q sem th held run dn pend n futs res lg sp]; simpl in *.
  destruct (take_item f held) as [[ip rest]|] eqn:Ht; simpl; [|done].
  intros [= <-].
  pose proof (take_item_perm _ _ _ _ Ht) as Hperm.
  pose proof (take_item_length _ _ _ _ Ht) as Hlen.
  rewrite Hperm in Hwork, Hids.
  apply Forall_app in Hwork as [Hq Hr]. apply Forall_app in Hr as [Hh Hr].
  apply Forall_cons in Hh as [Hf Hh]. simpl in Hf.
  split; simpl; rewrite ?yields_snoc, ?app_nil_r; try done.
  - rewrite !Forall_app. repeat split; try done. by constructor.
  - rewrite <- Hids, fmap_app. by float_conses.
  - rewrite Hsp, fmap_app, !bind_app. simpl. rewrite app_nil_r.
    replace (calls_of f) with (probe_calls (ping_once env ip timeout_ms))
      by (unfold calls_of, host_of; by rewrite Hf).
    rewrite <- !app_assoc.
    rewrite (Permutation_app_comm (probe_calls _)). by rewrite <- !app_assoc.
  - rewrite length_app. simpl. lia.
  - left. lia.
Qed.

Lemma Inv_WorkerDone sched st st' f :
  Inv sched st -> step env timeout_ms quiet st (WorkerDone f) = Some st' ->
  Inv (sched ++ [WorkerDone f]) st'.
Proof.
  intros [Hmax Hpend Hsub Hfut Hwork Hdone Hids Hres Hlog Hsp [Hc1 Hc2] Halive].
  destruct st as [mw q sem th held run dn pend n futs res lg sp]; simpl in *.
  destruct (take_item f run) as [[ip rest]|] eqn:Ht; simpl; [|done].
  intros [= <-].
  pose proof (take_item_perm _ _ _ _ Ht) as Hperm.
  pose proof (take_item_length _ _ _ _ Ht) as Hlen.
  rewrite Hperm in Hwork, Hids, Hsp.
  apply Forall_app in Hwork as [Hq Hr]. apply Forall_app in Hr as [Hh Hr].
  apply Forall_cons in Hr as [Hf Hr]. simpl in Hf.
  split; simpl; rewrite ?yields_snoc, ?app_nil_r; try done.
  - rewrite !Forall_app. done.
  - apply Forall_app. split; [done|]. constructor; [|done]. simpl.
    unfold outcome_of, host_of. by rewrite Hf.
  - rewrite <- Hids, fmap_app. by float_conses.
  - rewrite Hsp. apply bind_Permutation_arg. rewrite fmap_app. by float_conses.
  - lia.
  - left. lia.
Qed.

Lemma Inv_Yield sched st st' f :
  Inv sched st -> step env timeout_ms quiet st (Yield f) = Some st' ->
  Inv (sched ++ [Yield f]) st'.
Proof.
  intros [Hmax Hpend Hsub Hfut Hwork Hdone Hids Hres Hlog Hsp [Hc1 Hc2] Halive].
  destruct st as [mw q sem th held run dn pend n futs res lg sp]; simpl in *.
  destruct pend as [|? ?]; [|done].
  destruct (take_item f dn) as [[r rest]|] eqn:Ht; simpl; [|done].
  destruct (futs !! f) as [ip|] eqn:Hip; simpl; [|done].
  destruct (loop_body quiet ip r) as [entry records] eqn:Hbody.
  intros [= <-].
  pose proof (take_item_perm _ _ _ _ Ht) as Hperm.
  rewrite Hperm in Hdone, Hids, Hsp.
  apply Forall_cons in Hdone as [Hr Hdone]. simpl in Hr.
  rewrite Hfut in Hip. destruct (decide (f < n)%nat); [|done].
  assert (Hhost : host_of f = ip) by (unfold host_of; by rewrite Hip).
  split; simpl; rewrite ?yields_snoc; try done.
  - rewrite <- Hids. by float_conses.
  - rewrite fmap_app, Hres. simpl. unfold entry_of.
    by rewrite Hhost, <- Hr, Hbody.
  - rewrite Hlog, bind_app. simpl. rewrite app_nil_r.
    replace (records_of f) with records; [done|].
    unfold records_of. by rewrite Hhost, <- Hr, Hbody.
  - rewrite Hsp. apply bind_Permutation_arg. by float_conses.
  - destruct Halive as [?|(? & ? & ? & ? & ?)]; [by left|]. subst. done.
Qed.

Lemma Inv_step sched st st' a :
  Inv sched st -> step env timeout_ms quiet st a = Some st' -> Inv (sched ++ [a]) st'.
Proof.
  destruct a;
    eauto using Inv_Submit, Inv_WorkerGet, Inv_WorkerCall, Inv_WorkerDone, Inv_Yield.
Qed.

Lemma run_snoc st sched a :
  run env timeout_ms quiet st (sched ++ [a]) =
  run env timeout_ms quiet st sched ≫= fun s => step env timeout_ms quiet s a.
Proof. unfold run. by rewrite foldl_app. Qed.

Lemma run_Inv sched st :
  run env timeout_ms quiet (initial_state cidr H T) sched = Some st -> Inv sched st.
Proof.
  revert st. induction sched as [|a sched IH] using rev_ind; intros st Hrun.
  - injection Hrun as <-. apply Inv_initial.
  - rewrite run_snoc in Hrun.
    destruct (run env timeout_ms quiet (initial_state cidr H T) sched) as [s|];
      simpl in Hrun; [|done].
    eapply Inv_step; eauto.
Qed.


(** *** What a finished execution has produced *)

Lemma entry_of_probe_entry f : entry_of f = probe_entry (host_of f).
Proof.
  unfold entry_of, probe_entry, outcome_of, loop_body.
  by destruct (probe_value (ping_once env (host_of f) timeout_ms)).
Qed.

Lemma fmap_host_of_seq {B : Type} (g : string -> B) :
  (fun f => g (host_of f)) <$> seq 0 (length H) = g <$> H.
Proof.
  apply list_eq. intros i. rewrite !list_lookup_fmap.
  destruct (decide (i < length H)%nat) as [Hlt|Hge].
  - rewrite lookup_seq_lt by done. simpl.
    destruct (lookup_lt_is_Some_2 H i Hlt) as [x Hx].
    unfold host_of. by rewrite Hx.
  - rewrite lookup_seq_ge by lia. by rewrite (lookup_ge_None_2 H i) by lia.
Qed.

Lemma bind_host_of_seq {B : Type} (g : string -> list B) :
  seq 0 (length H) ≫= (fun f => g (host_of f)) = H ≫= g.
Proof.
  assert (Hb : forall l : list nat,
             l ≫= (fun f => g (host_of f)) = (host_of <$> l) ≫= g).
  { induction l as [|f l IH]; csimpl; [done|]. by rewrite IH. }
  rewrite Hb. f_equal.
  pose proof (fmap_host_of_seq id) as Hid. by rewrite list_fmap_id in Hid.
Qed.

Lemma all_yielded_true st :
  all_yielded st = true ->
  to_submit st = [] /\ _work_queue st = [] /\ taken st = [] /\
  in_flight st = [] /\ finished st = [].
Proof. unfold all_yielded. by intros ?%bool_decide_eq_true. Qed.

Lemma Inv_all_yielded sched st :
  Inv sched st -> all_yielded st = true ->
  yields sched ≡ₚ seq 0 (length H) /\
  results st = entry_of <$> yields sched /\
  log st = start_record cidr H T :: (yields sched ≫= records_of) /\
  results st ≡ₚ probe_entry <$> H /\
  run_calls st ≡ₚ H ≫= (fun ip => probe_calls (ping_once env ip timeout_ms)).
Proof.
  intros HI (Hp & Hq & Hh & Hr & Hd)%all_yielded_true.
  destruct HI as [Hmax Hpend Hsub Hfut Hwork Hdone Hids Hres Hlog Hsp Hcap Halive].
  rewrite Hq, Hh, Hr, Hd in Hids. rewrite Hr, Hd in Hsp. simpl in Hids, Hsp.
  assert (Hn : submitted st = length H).
  { rewrite Hp in Hpend. symmetry in Hpend.
    apply (f_equal length) in Hpend. rewrite length_drop in Hpend. simpl in Hpend. lia. }
  rewrite Hn in Hids.
  repeat split; try done.
  - rewrite Hres, Hids, <- fmap_host_of_seq.
    erewrite list_fmap_ext; [reflexivity|]. intros ? f _. apply entry_of_probe_entry.
  - rewrite Hsp, Hids. unfold calls_of.
    by rewrite (bind_host_of_seq (fun ip => probe_calls (ping_once env ip timeout_ms))).
Qed.

(** *** Every execution can be carried to its end *)


Lemma run_cons st a sched :
  run env timeout_ms quiet st (a :: sched) =
  step env timeout_ms quiet st a ≫= fun s => run env timeout_ms quiet s sched.
Proof.
  unfold run. simpl. destruct (step env timeout_ms quiet st a) as [s|]; simpl; [done|].
  induction sched; simpl; done.
Qed.




End Executions.

(** ** [sweep_network] on a valid range *)

Lemma sweep_network_valid env cidr net threads timeout_ms quiet sched out :
  ipaddress.ip_network cidr = Return net -> 1 <= threads ->
  sweep_network env cidr threads timeout_ms quiet sched = Some out ->
  exists st,
    run env timeout_ms quiet (initial_state cidr (sweep_hosts net) threads) sched
      = Some st /\
    all_yielded st = true /\
    out = SweepOutcome (Return (results st)) (log st) (run_calls st).
Proof.
  intros Hnet Hth. unfold sweep_network. rewrite Hnet.
  destruct (threads <=? 0) eqn:E; [lia|].
  destruct (run _ _ _ _ _) as [st|]; simpl; [|done].
  destruct (all_yielded st) eqn:Hend; [|done].
  intros [= <-]. by exists st.
Qed.




Lemma sweep_hosts_192_168_1_0_30 :
  sweep_hosts net_192_168_1_0_30 = ["192.168.1.1"; "192.168.1.2"].
Proof. vm_compute. reflexivity. Qed.



(** C7. In every state an execution of the sweep passes through, complete
    or not, the number of probes in flight is at most the configured
    concurrency: the probes running are at most the worker threads, and
    the worker threads are at most [max_workers = threads].  The bound
    also covers the work items a worker holds and has not yet run. *)
Theorem in_flight_bounded env cidr hosts threads timeout_ms quiet sched st :
  1 <= threads ->
  run env timeout_ms quiet (initial_state cidr hosts threads) sched = Some st ->
  (length (in_flight st) <= _threads st)%nat /\
  Z.of_nat (_threads st) <= threads /\
  Z.of_nat (length (in_flight st)) <= threads /\
  Z.of_nat (length (taken st) + length (in_flight st)) <= threads.
Proof.
  intros Hth Hrun.
  destruct (run_Inv env timeout_ms quiet cidr hosts threads Hth sched st Hrun)
    as [_ _ _ _ _ _ _ _ _ _ [Hc1 Hc2] _].
  repeat split; [lia|done|lia|lia].
Qed.

Lemma in_flight_bounded_witness :
  1 <= 2 /\
  run env_all_up 300 false
      (initial_state "192.168.1.0/30" ["192.168.1.1"; "192.168.1.2"] 2)
      [Submit; Submit; WorkerGet; WorkerGet; WorkerCall 0; WorkerCall 1]
  = Some (SweepState 2 [] 0 2 [] [(0, "192.168.1.1"); (1, "192.168.1.2")]%nat []
            [] 2 (<[1%nat := "192.168.1.2"]> (<[0%nat := "192.168.1.1"]> ∅)) []
            [start_record "192.168.1.0/30" ["192.168.1.1"; "192.168.1.2"] 2]
            [["ping"; "-c"; "1"; "-W"; "1"; "192.168.1.1"];
             ["ping"; "-c"; "1"; "-W"; "1"; "192.168.1.2"]]) /\
  Z.of_nat (length [(0, "192.168.1.1"); (1, "192.168.1.2")]%nat) <= 2.
Proof.
  assert (Hrun :
    run env_all_up 300 false
      (initial_state "192.168.1.0/30" ["192.168.1.1"; "192.168.1.2"] 2)
      [Submit; Submit; WorkerGet; WorkerGet; WorkerCall 0; WorkerCall 1]
    = Some (SweepState 2 [] 0 2 [] [(0, "192.168.1.1"); (1, "192.168.1.2")]%nat []
              [] 2 (<[1%nat := "192.168.1.2"]> (<[0%nat := "192.168.1.1"]> ∅)) []
              [start_record "192.168.1.0/30" ["192.168.1.1"; "192.168.1.2"] 2]
              [["ping"; "-c"; "1"; "-W"; "1"; "192.168.1.1"];
               ["ping"; "-c"; "1"; "-W"; "1"; "192.168.1.2"]]))
    by reflexivity.
  split; [lia|]. split; [exact Hrun|].
  exact (proj1 (proj2 (proj2 (in_flight_bounded env_all_up "192.168.1.0/30"
                         ["192.168.1.1"; "192.168.1.2"] 2 300 false _ _
                         ltac:(lia) Hrun)))).
Defined.

(** C2, as stated, fails: on [192.168.1.0/30] with every host up, the
    execution in which the second probe completes first returns the
    entries in the order [.2, .1], which is not the range order and
    differs from what the in-order execution of the same call returns. *)
Lemma completion_order_decides_result_order :
  sweep_hosts net_192_168_1_0_30 = ["192.168.1.1"; "192.168.1.2"] /\
  (sweep_value <$> sweep_network env_all_up "192.168.1.0/30" 2 300 false
                                 in_order_schedule)
    = Some (Return [("192.168.1.1", true); ("192.168.1.2", true)]) /\
  (sweep_value <$> sweep_network env_all_up "192.168.1.0/30" 2 300 false
                                 reversed_schedule)
    = Some (Return [("192.168.1.2", true); ("192.168.1.1", true)]) /\
  ~ (forall sched out,
       sweep_network env_all_up "192.168.1.0/30" 2 300 false sched = Some out ->
       sweep_value out =
       Return (probe_entry env_all_up 300 <$> sweep_hosts net_192_168_1_0_30)).
Proof.
  split; [apply sweep_hosts_192_168_1_0_30|].
  split; [vm_compute; reflexivity|].
  split; [vm_compute; reflexivity|].
  intros Hall.
  destruct (sweep_network env_all_up "192.168.1.0/30" 2 300 false reversed_schedule)
    as [out|] eqn:E; [|vm_compute in E; discriminate].
  specialize (Hall _ _ E).
  vm_compute in E. injection E as <-. vm_compute in Hall. discriminate.
Qed.

(** C2, amended. For every valid CIDR string and every execution, the
    returned list holds the entries in the order in which [as_completed]
    yielded the probes: it is a permutation of the range-ordered list of
    (host, outcome) pairs, and it is that list itself when the probes are
    yielded in range order. *)
Theorem sweep_result_in_completion_order env cidr net threads timeout_ms quiet
    sched out :
  ipaddress.ip_network cidr = Return net -> 1 <= threads ->
  sweep_network env cidr threads timeout_ms quiet sched = Some out ->
  let hosts := sweep_hosts net in
  let in_range_order := probe_entry env timeout_ms <$> hosts in
  exists entries,
    sweep_value out = Return entries /\
    entries = (fun f => probe_entry env timeout_ms (host_of hosts f)) <$> yields sched /\
    yields sched ≡ₚ seq 0 (length hosts) /\
    entries ≡ₚ in_range_order /\
    (yields sched = seq 0 (length hosts) -> entries = in_range_order).
Proof.
  intros Hnet Hth Hout hosts in_range_order.
  destruct (sweep_network_valid _ _ _ _ _ _ _ _ Hnet Hth Hout)
    as (st & Hrun & Hend & ->).
  pose proof (run_Inv env timeout_ms quiet cidr _ threads Hth sched st Hrun) as HI.
  destruct (Inv_all_yielded _ _ _ _ _ _ _ _ HI Hend) as (Hy & Hres & _ & Hperm & _).
  assert (Heq : results st =
                (fun f => probe_entry env timeout_ms (host_of hosts f)) <$> yields sched).
  { rewrite Hres. apply list_fmap_ext. intros ? f _. apply entry_of_probe_entry. }
  exists (results st). simpl. repeat split; try done.
  intros Hseq. rewrite Heq, Hseq. apply fmap_host_of_seq.
Qed.

Lemma sweep_result_in_completion_order_witness :
  ipaddress.ip_network "192.168.1.0/30" = Return net_192_168_1_0_30 /\
  1 <= 2 /\
  sweep_network env_all_up "192.168.1.0/30" 2 300 false reversed_schedule
    = Some (SweepOutcome
              (Return [("192.168.1.2", true); ("192.168.1.1", true)])
              [start_record "192.168.1.0/30" ["192.168.1.1"; "192.168.1.2"] 2;
               Log INFO "%s is %s" [ArgStr "192.168.1.2"; ArgStr "UP"];
               Log INFO "%s is %s" [ArgStr "192.168.1.1"; ArgStr "UP"]]
              [["ping"; "-c"; "1"; "-W"; "1"; "192.168.1.1"];
               ["ping"; "-c"; "1"; "-W"; "1"; "192.168.1.2"]]) /\
  exists entries,
    Return [("192.168.1.2", true); ("192.168.1.1", true)] = Return entries /\
    entries = (fun f => probe_entry env_all_up 300
                          (host_of (sweep_hosts net_192_168_1_0_30) f))
              <$> yields reversed_schedule /\
    yields reversed_schedule ≡ₚ seq 0 (length (sweep_hosts net_192_168_1_0_30)) /\
    entries ≡ₚ probe_entry env_all_up 300 <$> sweep_hosts net_192_168_1_0_30 /\
    (yields reversed_schedule = seq 0 (length (sweep_hosts net_192_168_1_0_30)) ->
     entries = probe_entry env_all_up 300 <$> sweep_hosts net_192_168_1_0_30).
Proof.
  assert (Hout :
    sweep_network env_all_up "192.168.1.0/30" 2 300 false reversed_schedule
    = Some (SweepOutcome
              (Return [("192.168.1.2", true); ("192.168.1.1", true)])
              [start_record "192.168.1.0/30" ["192.168.1.1"; "192.168.1.2"] 2;
               Log INFO "%s is %s" [ArgStr "192.168.1.2"; ArgStr "UP"];
               Log INFO "%s is %s" [ArgStr "192.168.1.1"; ArgStr "UP"]]
              [["ping"; "-c"; "1"; "-W"; "1"; "192.168.1.1"];
               ["ping"; "-c"; "1"; "-W"; "1"; "192.168.1.2"]]))
    by (vm_compute; reflexivity).
  split; [vm_compute; reflexivity|]. split; [lia|]. split; [exact Hout|].
  exact (sweep_result_in_completion_order env_all_up "192.168.1.0/30"
           net_192_168_1_0_30 2 300 false reversed_schedule _
           ltac:(vm_compute; reflexivity) ltac:(lia) Hout).
Defined.

(** C6. When the probe of a host raises an exception other than the
    [RuntimeError] of a missing [ping], the sweep still returns a list
    with one entry per host, that host's entry is Down, and its log holds
    the record of the error for that host (the code logs it with
    [logger.error]). *)
Theorem probe_exception_recorded_down env cidr net threads timeout_ms quiet
    sched out ip e :
  ipaddress.ip_network cidr = Return net -> 1 <= threads ->
  ip ∈ sweep_hosts net ->
  probe_value (ping_once env ip timeout_ms) = Raise e ->
  (forall msg, e <> RuntimeError msg) ->
  sweep_network env cidr threads timeout_ms quiet sched = Some out ->
  exists entries,
    sweep_value out = Return entries /\
    length entries = length (sweep_hosts net) /\
    (ip, false) ∈ entries /\
    Log ERROR "Error pinging %s: %s" [ArgStr ip; ArgExc e] ∈ sweep_log out.
Proof.
  intros Hnet Hth Hip Hping _ Hout.
  destruct (sweep_network_valid _ _ _ _ _ _ _ _ Hnet Hth Hout)
    as (st & Hrun & Hend & ->).
  pose proof (run_Inv env timeout_ms quiet cidr _ threads Hth sched st Hrun) as HI.
  destruct (Inv_all_yielded _ _ _ _ _ _ _ _ HI Hend) as (Hy & _ & Hlog & Hres & _).
  exists (results st). simpl. split; [done|]. split; [|split].
  - by rewrite Hres, length_fmap.
  - rewrite Hres. apply list_elem_of_fmap. exists ip. split; [|done].
    unfold probe_entry. by rewrite Hping.
  - apply list_elem_of_lookup in Hip as [f Hf].
    assert (Hfy : f ∈ yields sched).
    { rewrite Hy. apply elem_of_seq. split; [lia|]. simpl.
      by eapply lookup_lt_Some. }
    rewrite Hlog. apply elem_of_cons. right.
    apply list_elem_of_bind. exists f. split; [|done].
    unfold records_of, outcome_of, host_of. rewrite Hf. simpl. rewrite Hping.
    simpl. by left.
Qed.

Lemma probe_exception_recorded_down_witness :
  ipaddress.ip_network "192.168.1.0/30" = Return net_192_168_1_0_30 /\
  1 <= 2 /\
  "192.168.1.2" ∈ sweep_hosts net_192_168_1_0_30 /\
  probe_value (ping_once env_denied "192.168.1.2" 300) = Raise PermissionError /\
  (forall msg, PermissionError <> RuntimeError msg) /\
  (sweep_value <$> sweep_network env_denied "192.168.1.0/30" 2 300 true
                                 in_order_schedule)
    = Some (Return [("192.168.1.1", false); ("192.168.1.2", false)]) /\
  forall out,
    sweep_network env_denied "192.168.1.0/30" 2 300 true in_order_schedule
      = Some out ->
    exists entries,
      sweep_value out = Return entries /\
      length entries = length (sweep_hosts net_192_168_1_0_30) /\
      ("192.168.1.2", false) ∈ entries /\
      Log ERROR "Error pinging %s: %s"
          [ArgStr "192.168.1.2"; ArgExc PermissionError] ∈ sweep_log out.
Proof.
  assert (Hin : "192.168.1.2" ∈ sweep_hosts net_192_168_1_0_30).
  { rewrite sweep_hosts_192_168_1_0_30. apply elem_of_cons. right.
    apply elem_of_cons. by left. }
  split; [vm_compute; reflexivity|]. split; [lia|]. split; [exact Hin|].
  split; [reflexivity|]. split; [discriminate|].
  split; [vm_compute; reflexivity|].
  intros out Hout.
  exact (probe_exception_recorded_down env_denied "192.168.1.0/30"
           net_192_168_1_0_30 2 300 true in_order_schedule out "192.168.1.2"
           PermissionError ltac:(vm_compute; reflexivity) ltac:(lia) Hin
           ltac:(reflexivity) ltac:(discriminate) Hout).
Defined.

(** C1, on the failing input: with no [ping] executable every probe raises
    the [RuntimeError] of [ping_once], yet [sweep_network] returns a list
    that records both hosts as Down, and [main] logs the summary and ends
    with status 0; the [except RuntimeError] branch of [main] is not
    taken. *)
Lemma missing_ping_is_recorded_down :
  probe_value (ping_once env_no_ping "192.168.1.1" 300)
    = Raise (RuntimeError "'ping' command not found on this system") /\
  (sweep_value <$> sweep_network env_no_ping "192.168.1.0/30" 2 300 true
                                 in_order_schedule)
    = Some (Return [("192.168.1.1", false); ("192.168.1.2", false)]) /\
  (main_end <$> main env_no_ping (Namespace "192.168.1.0/30" 2 300 true)
                     in_order_schedule)
    = Some ExitNormally /\
  (main_log <$> main env_no_ping (Namespace "192.168.1.0/30" 2 300 true)
                     in_order_schedule)
    = Some [start_record "192.168.1.0/30" ["192.168.1.1"; "192.168.1.2"] 2;
            Log ERROR "Error pinging %s: %s"
                [ArgStr "192.168.1.1";
                 ArgExc (RuntimeError "'ping' command not found on this system")];
            Log ERROR "Error pinging %s: %s"
                [ArgStr "192.168.1.2";
                 ArgExc (RuntimeError "'ping' command not found on this system")];
            Log INFO "Scan finished: %d/%d hosts up (%.1fs)" [ArgInt 0; ArgInt 2]] /\
  exit_status ExitNormally = 0.
Proof. repeat split; vm_compute; reflexivity. Qed.

(** ** The digit limit of [str] *)

Lemma of_lu_lt (d : Decimal.uint) : (DecimalPos.Unsigned.of_lu d < 10 ^ DecimalPos.Unsigned.usize d)%N.
Proof.
  induction d; cbn [DecimalPos.Unsigned.of_lu DecimalPos.Unsigned.usize];
    rewrite ?N.pow_succ_r'; [cbn; lia|lia..].
Qed.

Lemma usize_nb_digits (d : Decimal.uint) : DecimalPos.Unsigned.usize d = N.of_nat (Decimal.nb_digits d).
Proof.
  induction d; cbn [DecimalPos.Unsigned.usize Decimal.nb_digits]; rewrite ?IHd; lia.
Qed.

Lemma length_string_of_uint (d : Decimal.uint) :
  String.length (DecimalString.NilEmpty.string_of_uint d) = Decimal.nb_digits d.
Proof. induction d; cbn; congruence. Qed.

Lemma to_uint_normal p : Decimal.unorm (Pos.to_uint p) = Pos.to_uint p.
Proof.
  pose proof (DecimalPos.Unsigned.to_of (Pos.to_uint p)) as H.
  rewrite DecimalPos.Unsigned.of_to in H. cbn in H. congruence.
Qed.

Lemma of_uint_acc_ge (d : Decimal.uint) acc :
  (10 ^ DecimalPos.Unsigned.usize d <= N.pos (Pos.of_uint_acc d acc))%N.
Proof.
  rewrite DecimalPos.Unsigned.of_uint_acc_rev.
  pose proof (N.pow_nonzero 10 (DecimalPos.Unsigned.usize d) ltac:(lia)). nia.
Qed.

Lemma to_uint_bounds p :
  let d := Pos.to_uint p in
  (10 ^ N.of_nat (Nat.pred (Decimal.nb_digits d)) <= N.pos p
   < 10 ^ N.of_nat (Decimal.nb_digits d))%N.
Proof.
  intros d. split.
  - pose proof (DecimalPos.Unsigned.of_to p) as Hv. fold d in Hv.
    pose proof (to_uint_normal p) as Hn. fold d in Hn.
    pose proof (DecimalPos.Unsigned.to_uint_nonzero p) as Hz. fold d in Hz.
    destruct d as [|d'|d'|d'|d'|d'|d'|d'|d'|d'|d'];
      cbn [Decimal.nb_digits Nat.pred];
      try (cbn [Pos.of_uint] in Hv; rewrite <- Hv, <- usize_nb_digits;
           apply of_uint_acc_ge).
    + cbn. lia.
    + exfalso. rewrite DecimalFacts.unorm_D0 in Hn.
      destruct (Decimal.uint_eq_dec d' Decimal.Nil) as [->|Hne]; [by apply Hz|].
      pose proof (DecimalFacts.nb_digits_unorm d' Hne) as Hle.
      rewrite Hn in Hle. cbn [Decimal.nb_digits] in Hle. lia.
  - rewrite <- (DecimalPos.Unsigned.of_to p). fold d. rewrite DecimalPos.Unsigned.of_uint_alt.
    rewrite <- DecimalFacts.nb_digits_rev, <- usize_nb_digits. apply of_lu_lt.
Qed.

(** The decimal text of a natural number has at most [k] digits exactly
    when the number is below [10^k]. *)
Lemma decimal_length n k :
  0 <= n -> (0 < k)%nat ->
  (String.length (PyStr.decimal n) <= k)%nat <-> n < 10 ^ Z.of_nat k.
Proof.
  intros Hn Hk. unfold PyStr.decimal.
  destruct n as [|p|p]; [|clear Hn|lia].
  - cbn. split; [intros _; by apply Z.pow_pos_nonneg; lia|lia].
  - cbn [Z.to_int DecimalString.NilZero.string_of_int]. unfold DecimalString.NilZero.string_of_uint.
    pose proof (to_uint_bounds p) as [Hlo Hhi]. cbn zeta in Hlo, Hhi.
    pose proof (DecimalPos.Unsigned.to_uint_nonnil p) as Hnil.
    assert (Hlen : String.length
                     match Pos.to_uint p with
                     | Decimal.Nil => "0"
                     | _ => DecimalString.NilEmpty.string_of_uint (Pos.to_uint p)
                     end = Decimal.nb_digits (Pos.to_uint p)).
    { rewrite <- length_string_of_uint. by destruct (Pos.to_uint p). }
    rewrite Hlen. set (m := Decimal.nb_digits (Pos.to_uint p)) in *.
    split.
    + intros Hle.
      assert (Hpow : (10 ^ N.of_nat m <= 10 ^ N.of_nat k)%N)
        by (apply N.pow_le_mono_r; lia).
      apply N2Z.inj_lt in Hhi. apply N2Z.inj_le in Hpow.
      rewrite !N2Z.inj_pow, !nat_N_Z in *. simpl in Hhi, Hpow. lia.
    + intros Hlt. destruct (decide (m <= k)%nat) as [|Hgt]; [done|].
      assert (Hpow : (10 ^ N.of_nat k <= 10 ^ N.of_nat (Nat.pred m))%N)
        by (apply N.pow_le_mono_r; lia).
      apply N2Z.inj_le in Hlo. apply N2Z.inj_le in Hpow.
      rewrite !N2Z.inj_pow, !nat_N_Z in *. simpl in Hlo, Hpow. lia.
Qed.

Lemma str_below_limit n :
  Z.abs n < 10 ^ 4300 -> PyStr.str n = Return (PyStr.decimal n).
Proof.
  intros Hn. unfold PyStr.str, PyStr.int_max_str_digits.
  assert (Hk : (0 < 4300)%nat) by (clear; lia).
  pose proof (proj2 (decimal_length (Z.abs n) 4300 (Z.abs_nonneg n) Hk)) as Hlen.
  change (Z.of_nat 4300) with 4300 in Hlen. specialize (Hlen Hn). clear Hn.
  destruct (Z.ltb_spec 4300 (Z.of_nat (String.length (PyStr.decimal (Z.abs n)))));
    [lia|done].
Qed.

Lemma str_beyond_limit n :
  10 ^ 4300 <= Z.abs n -> exists msg, PyStr.str n = Raise (ValueError msg).
Proof.
  intros Hn. unfold PyStr.str, PyStr.int_max_str_digits.
  assert (Hk : (0 < 4300)%nat) by (clear; lia).
  pose proof (proj1 (decimal_length (Z.abs n) 4300 (Z.abs_nonneg n) Hk)) as Hlen.
  change (Z.of_nat 4300) with 4300 in Hlen.
  destruct (Z.ltb_spec 4300 (Z.of_nat (String.length (PyStr.decimal (Z.abs n)))))
    as [|Hle]; [by eexists|].
  assert (Hlen' : (String.length (PyStr.decimal (Z.abs n)) <= 4300)%nat)
    by (clear - Hle; lia).
  exfalso. apply (Z.lt_irrefl (Z.abs n)).
  exact (Z.lt_le_trans _ _ _ (Hlen Hlen') Hn).
Qed.

(** ** The timeout handed to [ping] *)


Lemma ceil_div_1000_spec (t : Z) :
  1000 * (ceil_div t 1000 - 1) < t <= 1000 * ceil_div t 1000.
Proof.
  unfold ceil_div.
  pose proof (Z.div_mod (- t) 1000 ltac:(lia)).
  pose proof (Z.mod_pos_bound (- t) 1000 ltac:(lia)). lia.
Qed.

Lemma floor_plus_999_is_ceil (t : Z) : (t + 999) / 1000 = ceil_div t 1000.
Proof.
  pose proof (ceil_div_1000_spec t).
  symmetry. apply (Z.div_unique _ _ _ (t + 999 - 1000 * ceil_div t 1000)); lia.
Qed.

Lemma get_ping_command_unix env ip timeout_ms :
  platform_system env <> "Windows" ->
  get_ping_command env ip timeout_ms
  = (w ← PyStr.str (Z.max 1 (ceil_div timeout_ms 1000));
     Return ["ping"; "-c"; "1"; "-W"; w; ip]).
Proof.
  intros Hsys. unfold get_ping_command.
  destruct (String.eqb_spec (platform_system env) "Windows") as [|_]; [done|].
  by rewrite floor_plus_999_is_ceil.
Qed.

Lemma str_Return n w : PyStr.str n = Return w -> w = PyStr.decimal n.
Proof. unfold PyStr.str. case (_ <? _); [done|]. by intros [= <-]. Qed.

(** C9, as stated, fails: the claim is made for every integer
    [timeout_ms], but off Windows at [timeout_ms = 10^4303] the seconds
    value is [10^4300], which has 4301 decimal digits; [str(secs)] raises
    [ValueError], so [get_ping_command] builds no command and the probe
    ends in that exception without calling [subprocess.run]. *)
Lemma unix_timeout_beyond_str_limit :
  platform_system env_all_up <> "Windows" /\
  Z.max 1 (ceil_div (10 ^ 4303) 1000) = 10 ^ 4300 /\
  get_ping_command env_all_up "192.168.1.1" (10 ^ 4303)
    = Raise (ValueError ("Exceeds the limit (4300 digits) for integer string "
                         +:+ "conversion; use sys.set_int_max_str_digits() "
                         +:+ "to increase the limit")) /\
  ping_once env_all_up "192.168.1.1" (10 ^ 4303)
    = Probe (Raise (ValueError ("Exceeds the limit (4300 digits) for integer string "
                                +:+ "conversion; use sys.set_int_max_str_digits() "
                                +:+ "to increase the limit"))) [] /\
  ~ (forall timeout_ms, exists w,
       get_ping_command env_all_up "192.168.1.1" timeout_ms
       = Return ["ping"; "-c"; "1"; "-W"; w; "192.168.1.1"]).
Proof.
  assert (Hcmd : get_ping_command env_all_up "192.168.1.1" (10 ^ 4303)
    = Raise (ValueError ("Exceeds the limit (4300 digits) for integer string "
                         +:+ "conversion; use sys.set_int_max_str_digits() "
                         +:+ "to increase the limit")))
    by (vm_compute; reflexivity).
  split; [discriminate|]. split; [vm_compute; reflexivity|].
  split; [exact Hcmd|]. split.
  - unfold ping_once. by rewrite Hcmd.
  - intros Hall. destruct (Hall (10 ^ 4303)) as [w Hw]. by rewrite Hcmd in Hw.
Qed.

Lemma seconds_below_limit timeout_ms :
  Z.max 1 (ceil_div timeout_ms 1000) < 10 ^ 4300 <->
  timeout_ms <= 10 ^ 4303 - 1000.
Proof.
  pose proof (ceil_div_1000_spec timeout_ms) as Hc.
  assert (Hpow : 10 ^ 4303 = 1000 * 10 ^ 4300).
  { change 4303 with (3 + 4300). by rewrite Z.pow_add_r by lia. }
  assert (Hbig : 1 < 10 ^ 4300) by (by apply Z.pow_gt_1).
  rewrite Hpow. generalize dependent (10 ^ 4300). intros P _ HP. lia.
Qed.

(** C9, amended. Off Windows, for every integer [timeout_ms] up to
    [10^4303 - 1000], the [-W] argument of the ping command is
    [max(1, ceil(timeout_ms / 1000))] seconds in decimal; above that the
    seconds value has more than 4300 decimal digits, [str(secs)] raises
    [ValueError] and no command is built.  A timeout below 1000 ms always
    yields the argument [1]; and for a requested timeout of at least 1 ms
    the effective timeout exceeds the requested one by at most 999 ms, a
    bound reached at 1 ms. *)
Theorem unix_timeout_rounds_up_to_seconds env ip timeout_ms :
  platform_system env <> "Windows" ->
  let secs := Z.max 1 (ceil_div timeout_ms 1000) in
  (timeout_ms <= 10 ^ 4303 - 1000 ->
   get_ping_command env ip timeout_ms
     = Return ["ping"; "-c"; "1"; "-W"; PyStr.decimal secs; ip]) /\
  (10 ^ 4303 - 1000 < timeout_ms ->
   exists msg, get_ping_command env ip timeout_ms = Raise (ValueError msg)) /\
  1000 * (ceil_div timeout_ms 1000 - 1) < timeout_ms <= 1000 * ceil_div timeout_ms 1000 /\
  (timeout_ms < 1000 ->
   secs = 1 /\
   get_ping_command env ip timeout_ms = Return ["ping"; "-c"; "1"; "-W"; "1"; ip]) /\
  (1 <= timeout_ms -> 0 <= 1000 * secs - timeout_ms <= 999) /\
  1000 * Z.max 1 (ceil_div 1 1000) - 1 = 999.
Proof.
  intros Hsys secs. pose proof (ceil_div_1000_spec timeout_ms) as Hc.
  pose proof (get_ping_command_unix env ip timeout_ms Hsys) as Hcmd.
  fold secs in Hcmd.
  assert (Habs : Z.abs secs = secs) by (unfold secs; lia).
  split; [|split; [|split; [done|split; [|split]]]].
  - intros Hle. rewrite Hcmd, str_below_limit; [done|].
    rewrite Habs. by apply seconds_below_limit.
  - intros Hgt. rewrite Hcmd.
    destruct (str_beyond_limit secs) as [msg ->]; [|by exists msg].
    rewrite Habs. apply Z.nlt_ge. intros Hlt%seconds_below_limit.
    exact (Z.lt_irrefl _ (Z.le_lt_trans _ _ _ Hlt Hgt)).
  - intros Hlt. assert (Hone : secs = 1) by (unfold secs; lia).
    split; [done|]. rewrite Hcmd, Hone. reflexivity.
  - unfold secs. lia.
  - reflexivity.
Qed.

Lemma unix_timeout_rounds_up_to_seconds_witness :
  platform_system env_all_up <> "Windows" /\
  2500 <= 10 ^ 4303 - 1000 /\
  get_ping_command env_all_up "192.168.1.1" 2500
    = Return ["ping"; "-c"; "1"; "-W"; "3"; "192.168.1.1"] /\
  (1 <= 2500 -> 0 <= 1000 * Z.max 1 (ceil_div 2500 1000) - 2500 <= 999).
Proof.
  assert (Hsys : platform_system env_all_up <> "Windows") by discriminate.
  assert (Hle : 2500 <= 10 ^ 4303 - 1000) by (vm_compute; discriminate).
  destruct (unix_timeout_rounds_up_to_seconds env_all_up "192.168.1.1" 2500 Hsys)
    as (Hcmd & _ & _ & _ & Hgap & _).
  split; [exact Hsys|]. split; [exact Hle|].
  split; [exact (Hcmd Hle)|exact Hgap].
Defined.

(** ** Which exceptions the address parser raises *)

Module ipaddress_facts.
Import PyStr ipaddress.


Ltac crunch_result :=
  repeat (simplify_eq/=;
          match goal with
          | H : context [mbind _ ?m] |- _ =>
              let E := fresh "E" in destruct m eqn:E
          | H : context [match ?m with _ => _ end] |- _ =>
              let E := fresh "E" in destruct m eqn:E
          end);
  simplify_eq/=.

Lemma int10_raises s e : int10 s = Raise e -> value_error e.
Proof. unfold int10, value_error. intros. crunch_result; eauto. Qed.

Lemma int16_fold_raises cs acc e :
  fold_left (fun acc c =>
               a ← acc;
               match hex_value c with
               | Some d => Return (a * 16 + d)
               | None => Raise (ValueError "invalid literal for int()")
               end) cs acc = Raise e ->
  (forall e', acc = Raise e' -> value_error e') -> value_error e.
Proof.
  revert acc. induction cs as [|c cs IH]; simpl; intros acc Hf Hacc.
  - by apply Hacc.
  - apply (IH _ Hf). intros e' He'. destruct acc as [a|e0]; simpl in He'.
    + destruct (hex_value c); simplify_eq. by eexists.
    + simplify_eq. by apply Hacc.
Qed.

Lemma int16_raises s e : int16 s = Raise e -> value_error e.
Proof.
  unfold int16. destruct (String.eqb s ""); [intros [= <-]; by eexists|].
  intros Hf. apply (int16_fold_raises _ _ _ Hf). done.
Qed.

Lemma _parse_octet_raises s e : _parse_octet s = Raise e -> value_error e.
Proof.
  unfold _parse_octet. intros. crunch_result; try (by eexists).
  by eapply int10_raises.
Qed.

Lemma _parse_hextet_raises s e : _parse_hextet s = Raise e -> value_error e.
Proof.
  unfold _parse_hextet. intros. crunch_result; try (by eexists).
  by eapply int16_raises.
Qed.

Lemma from_bytes_big_raises f l acc e :
  (forall s e', f s = Raise e' -> value_error e') ->
  from_bytes_big f l acc = Raise e -> value_error e.
Proof.
  intros Hf. revert acc. induction l as [|x l IH]; simpl; intros acc Hr; [done|].
  destruct (f x) as [b|e0] eqn:E; simpl in Hr.
  - by eapply IH.
  - simplify_eq. by eapply Hf.
Qed.

Lemma shift_in_hextets_raises ps acc e :
  shift_in_hextets ps acc = Raise e -> value_error e.
Proof.
  revert acc. induction ps as [|p ps IH]; simpl; intros acc Hr; [done|].
  destruct (_parse_hextet p) as [h|e0] eqn:E; simpl in Hr.
  - by eapply IH.
  - simplify_eq. by eapply _parse_hextet_raises.
Qed.

Lemma find_skip_index_raises parts idx skip e :
  find_skip_index parts idx skip = Raise e -> address_error e.
Proof.
  revert skip. induction idx as [|i idx IH]; simpl; intros skip Hr; [done|].
  destruct (bool_decide _); [destruct skip|]; simplify_eq; eauto. done.
Qed.

Lemma v4_ip_int_from_string_raises s e :
  v4_ip_int_from_string s = Raise e -> address_error e.
Proof.
  unfold v4_ip_int_from_string, address_error. intros Hr.
  destruct (String.eqb s ""); [by simplify_eq|].
  destruct (negb _); [by simplify_eq|].
  destruct (from_bytes_big _ _ _) as [n|e0] eqn:E; [done|].
  destruct (from_bytes_big_raises _ _ _ _ _parse_octet_raises E) as [msg ->].
  by simplify_eq.
Qed.

Lemma IPv4Address_raises s e : IPv4Address s = Raise e -> address_error e.
Proof.
  unfold IPv4Address, address_error. intros Hr.
  destruct (contains "/" s); [by simplify_eq|].
  destruct (v4_ip_int_from_string s) eqn:E; simpl in Hr; simplify_eq.
  by eapply v4_ip_int_from_string_raises.
Qed.

Lemma v6_ip_int_from_string_raises s e :
  v6_ip_int_from_string s = Raise e -> address_error e.
Proof.
  unfold v6_ip_int_from_string, address_error. intros Hr.
  destruct (String.eqb s ""); [by simplify_eq|].
  destruct (_ <? _)%nat; [by simplify_eq|].
  match type of Hr with mbind _ ?m = _ => destruct m as [parts|e0] eqn:Eparts end;
    simpl in Hr.
  2: { simplify_eq. destruct (contains _ _); [|done].
       destruct (IPv4Address _); by simplify_eq. }
  destruct (_ <? _); [by simplify_eq|].
  destruct (find_skip_index _ _ _) as [skip|e0] eqn:Eskip; simpl in Hr.
  2: { simplify_eq. by eapply find_skip_index_raises. }
  match type of Hr with mbind _ ?m = _ => destruct m as [[[hi lo] sk]|e0] eqn:Ehl end;
    simpl in Hr.
  2: { simplify_eq. clear Eskip Eparts.
       destruct skip; repeat case_match; simplify_eq/=; try done;
         repeat case_match; simplify_eq/=; done. }
  destruct (shift_in_hextets (take _ _) 0) as [ip1|e1] eqn:E1; simpl in Hr.
  - destruct (shift_in_hextets (drop _ _) _) as [ip2|e2] eqn:E2; [done|].
    destruct (shift_in_hextets_raises _ _ _ E2) as [msg ->]. by simplify_eq.
  - destruct (shift_in_hextets_raises _ _ _ E1) as [msg ->]. by simplify_eq.
Qed.

Lemma IPv6Address_raises s e : IPv6Address s = Raise e -> address_error e.
Proof.
  unfold IPv6Address, _split_scope_id, address_error. intros Hr.
  destruct (contains "/" s); [by simplify_eq|].
  destruct (partition "%" s) as [[a sep] sc].
  destruct (negb sep); simpl in Hr.
  - destruct (v6_ip_int_from_string a) eqn:E; simpl in Hr; simplify_eq.
    by eapply v6_ip_int_from_string_raises.
  - destruct (_ || _); simpl in Hr; [by simplify_eq|].
    destruct (v6_ip_int_from_string a) eqn:E; simpl in Hr; simplify_eq.
    by eapply v6_ip_int_from_string_raises.
Qed.

Lemma IPvAddress_raises v s e : IPvAddress v s = Raise e -> address_error e.
Proof. destruct v; [apply IPv4Address_raises|apply IPv6Address_raises]. Qed.

Lemma _prefix_from_prefix_string_raises v s e :
  _prefix_from_prefix_string v s = Raise e -> netmask_error e.
Proof.
  unfold _prefix_from_prefix_string, netmask_error. intros.
  repeat case_match; by simplify_eq.
Qed.

Lemma _prefix_from_ip_string_raises v s e :
  _prefix_from_ip_string v s = Raise e -> netmask_error e.
Proof.
  unfold _prefix_from_ip_string, netmask_error. intros.
  repeat case_match; by simplify_eq.
Qed.

Lemma _make_netmask_raises v arg e :
  _make_netmask v arg = Raise e -> netmask_error e.
Proof.
  unfold _make_netmask, netmask_error. intros Hr.
  match type of Hr with mbind _ ?m = _ => destruct m as [p|e0] eqn:Ep end;
    simpl in Hr; simplify_eq.
  destruct arg as [s|n].
  - destruct v.
    + destruct (_prefix_from_prefix_string V4 s) as [p|e1] eqn:E1; [done|].
      pose proof (_prefix_from_prefix_string_raises _ _ _ E1) as ->.
      by eapply _prefix_from_ip_string_raises.
    + by eapply _prefix_from_prefix_string_raises.
  - destruct (negb _); by simplify_eq.
Qed.

Lemma IPvNetwork_raises v s e :
  IPvNetwork v s = Raise e -> address_error e \/ netmask_error e.
Proof.
  unfold IPvNetwork, _split_addr_prefix, _split_optional_netmask. intros Hr.
  destruct (_ <? _)%nat; simpl in Hr; [left; by simplify_eq|].
  match type of Hr with mbind _ ?m = _ => destruct m as [[addr mask]|e0] eqn:Es end;
    simpl in Hr.
  2: { repeat case_match; simplify_eq. }
  destruct (IPvAddress v addr) as [a|e1] eqn:Ea; simpl in Hr.
  2: { left. simplify_eq. by eapply IPvAddress_raises. }
  destruct (_make_netmask v mask) as [[nm p]|e2] eqn:Em; simpl in Hr; [done|].
  right. simplify_eq. by eapply _make_netmask_raises.
Qed.

(** [ip_network] raises nothing but [ValueError]. *)
Lemma ip_network_raises s e : ip_network s = Raise e -> value_error e.
Proof.
  unfold ip_network. intros Hr.
  destruct (IPvNetwork V4 s) as [n4|e4] eqn:E4; [done|].
  destruct (IPvNetwork V6 s) as [n6|e6] eqn:E6.
  - destruct (IPvNetwork_raises _ _ _ E4) as [->| ->]; done.
  - destruct (IPvNetwork_raises _ _ _ E4) as [->| ->];
      destruct (IPvNetwork_raises _ _ _ E6) as [->| ->];
      simplify_eq; by eexists.
Qed.

(** *** The shape of a parsed network *)

Lemma _count_righthand_zero_bits_range number bits :
  0 <= bits -> 0 <= _count_righthand_zero_bits number bits <= bits.
Proof.
  intros Hb. unfold _count_righthand_zero_bits, bit_length.
  destruct (number =? 0); [lia|].
  destruct (_ =? 0); [lia|].
  pose proof (Z.log2_nonneg (Z.land (Z.lnot number) (number - 1))). lia.
Qed.

Lemma _max_prefixlen_pos v : 0 < _max_prefixlen v.
Proof. by destruct v. Qed.

Lemma _prefix_from_ip_int_range v ip_int p :
  _prefix_from_ip_int v ip_int = Return p -> 0 <= p <= _max_prefixlen v.
Proof.
  unfold _prefix_from_ip_int. destruct (negb _); [done|]. intros [= <-].
  pose proof (_max_prefixlen_pos v).
  pose proof (_count_righthand_zero_bits_range ip_int (_max_prefixlen v)). lia.
Qed.

Lemma _make_netmask_inv v arg nm p :
  _make_netmask v arg = Return (nm, p) ->
  0 <= p <= _max_prefixlen v /\ nm = _ip_int_from_prefix v p.
Proof.
  unfold _make_netmask. intros Hr.
  match type of Hr with mbind _ ?m = _ => destruct m as [p'|e0] eqn:Ep end;
    simpl in Hr; simplify_eq.
  split; [|done].
  destruct arg as [s|n].
  - assert (Hstr : forall w q, _prefix_from_prefix_string w s = Return q ->
                               0 <= q <= _max_prefixlen w).
    { intros w q. unfold _prefix_from_prefix_string.
      destruct (negb (isascii_isdigit s)); [done|].
      destruct (int10 s) as [n|]; [|done].
      destruct (negb _) eqn:E; [done|]. intros [= <-].
      apply negb_false_iff, andb_true_iff in E. lia. }
    destruct v; [|by eapply Hstr].
    destruct (_prefix_from_prefix_string V4 s) as [q|e1] eqn:E1.
    + simplify_eq. by eapply Hstr.
    + destruct e1; simplify_eq.
      unfold _prefix_from_ip_string in Ep.
      repeat case_match; simplify_eq; by eapply _prefix_from_ip_int_range.
  - destruct (negb _) eqn:E; simplify_eq.
    apply negb_false_iff, andb_true_iff in E. lia.
Qed.

Lemma IPvAddress_version v s a : IPvAddress v s = Return a -> addr_version a = v.
Proof.
  destruct v; simpl.
  - unfold IPv4Address. intros. repeat case_match; simplify_eq.
    destruct (v4_ip_int_from_string s); by simplify_eq/=.
  - unfold IPv6Address. intros. repeat case_match; simplify_eq.
    destruct (_split_scope_id s) as [[? ?]|]; simplify_eq/=.
    destruct (v6_ip_int_from_string _); by simplify_eq/=.
Qed.

Lemma IPvNetwork_inv v s net :
  IPvNetwork v s = Return net ->
  net_version net = v /\
  0 <= _prefixlen net <= _max_prefixlen v /\
  netmask net = _ip_int_from_prefix v (_prefixlen net) /\
  _ip (network_address net) = Z.land (_ip (addr_given net)) (netmask net) /\
  IPvAddress v (List.hd "" (split "/" s)) = Return (addr_given net).
Proof.
  unfold IPvNetwork, _split_addr_prefix, _split_optional_netmask. intros Hr.
  destruct (_ <? _)%nat; simpl in Hr; [done|].
  match type of Hr with mbind _ ?m = _ => destruct m as [[addr mask]|e0] eqn:Es end;
    simpl in Hr; [|done].
  assert (Haddr : addr = List.hd "" (split "/" s)).
  { destruct (split "/" s) as [|? [|? ?]]; by simplify_eq/=. }
  destruct (IPvAddress v addr) as [a|e1] eqn:Ea; simpl in Hr; [|done].
  destruct (_make_netmask v mask) as [[nm p]|e2] eqn:Em; simpl in Hr; [|done].
  destruct (_make_netmask_inv _ _ _ _ Em) as [Hp ->].
  injection Hr as <-. simpl. subst addr. repeat split; try done; try lia.
  destruct (Z.land _ _ =? _ip a) eqn:E; simpl; [|done].
  symmetry. by apply Z.eqb_eq.
Qed.

Lemma ip_network_inv s net :
  ip_network s = Return net -> exists v, IPvNetwork v s = Return net.
Proof.
  unfold ip_network. intros Hr.
  destruct (IPvNetwork V4 s) as [n4|e4] eqn:E4; [simplify_eq; by exists V4|].
  destruct (IPvNetwork V6 s) as [n6|e6] eqn:E6.
  - destruct e4; simplify_eq; by exists V6.
  - destruct e4, e6; simplify_eq.
Qed.

(** *** Masks as integers *)

Lemma _ALL_ONES_ones v : _ALL_ONES v = Z.ones (_max_prefixlen v).
Proof. unfold _ALL_ONES. rewrite Z.ones_equiv. lia. Qed.

Lemma shiftr_ones m p : 0 <= p <= m -> Z.shiftr (Z.ones m) p = Z.ones (m - p).
Proof.
  intros Hp. apply Z.bits_inj'. intros i Hi.
  rewrite Z.shiftr_spec, !Z.testbit_ones_nonneg by lia.
  destruct (Z.ltb_spec (i + p) m), (Z.ltb_spec i (m - p)); lia.
Qed.

Lemma hostmask_ones net v :
  net_version net = v -> 0 <= _prefixlen net <= _max_prefixlen v ->
  netmask net = _ip_int_from_prefix v (_prefixlen net) ->
  hostmask net = Z.ones (_max_prefixlen v - _prefixlen net).
Proof.
  intros Hv Hp Hnm. unfold hostmask. rewrite Hnm, Hv.
  unfold _ip_int_from_prefix. rewrite _ALL_ONES_ones, shiftr_ones by done.
  apply Z.bits_inj'. intros i _. rewrite !Z.lxor_spec.
  by destruct (Z.testbit (Z.ones (_max_prefixlen v)) i), (Z.testbit _ i).
Qed.

Lemma broadcast_is_network_plus_size net v :
  net_version net = v -> 0 <= _prefixlen net <= _max_prefixlen v ->
  netmask net = _ip_int_from_prefix v (_prefixlen net) ->
  _ip (network_address net) = Z.land (_ip (addr_given net)) (netmask net) ->
  _ip (broadcast_address net) =
  _ip (network_address net) + 2 ^ (_max_prefixlen v - _prefixlen net) - 1.
Proof.
  intros Hv Hp Hnm Hna. simpl.
  rewrite (hostmask_ones net v) by done.
  set (m := _max_prefixlen v) in *. set (p := _prefixlen net) in *.
  assert (Hdisj : Z.land (_ip (network_address net)) (Z.ones (m - p)) = 0).
  { rewrite Hna, Hnm. unfold _ip_int_from_prefix.
    rewrite _ALL_ONES_ones. fold m. rewrite shiftr_ones by done.
    apply Z.bits_inj'. intros i Hi.
    rewrite !Z.land_spec, Z.lxor_spec, !Z.testbit_ones_nonneg, Z.bits_0 by lia.
    destruct (Z.ltb_spec i m), (Z.ltb_spec i (m - p)); simpl;
      rewrite ?andb_false_r; try done; lia. }
  rewrite <- Z.lxor_lor, <- Z.add_nocarry_lxor by done.
  rewrite Z.ones_equiv. lia.
Qed.

(** *** [range] *)

Lemma elem_of_range a b x : x ∈ range a b <-> a <= x < b.
Proof.
  unfold range. rewrite list_elem_of_fmap. split.
  - intros (i & -> & Hi%elem_of_seq). lia.
  - intros Hx. exists (Z.to_nat (x - a)). split; [lia|].
    apply elem_of_seq. lia.
Qed.

Lemma range_sorted a b : StronglySorted Z.lt (range a b).
Proof.
  unfold range. generalize (Z.to_nat (b - a)) as n. intros n.
  assert (Hgen : forall k, StronglySorted Z.lt
                   ((fun i : nat => a + Z.of_nat i) <$> seq k n)).
  { induction n as [|n IH]; intros k; simpl; constructor; [apply IH|].
    apply Forall_forall. intros x (i & -> & Hi%elem_of_seq)%list_elem_of_fmap. lia. }
  apply Hgen.
Qed.

Lemma range_two a : range a (a + 2) = [a; a + 1].
Proof.
  unfold range. replace (a + 2 - a) with 2 by lia. simpl.
  by rewrite Z.add_0_r.
Qed.

Lemma _ip_fmap_addresses v (l : list Z) :
  _ip <$> ((fun x => Address v x None) <$> l) = l.
Proof. rewrite <- list_fmap_compose. by rewrite <- (list_fmap_id l) at 2. Qed.

End ipaddress_facts.

(** ** Splitting and joining text *)

Lemma split_no_sep sep a : PyStr.contains sep a = false -> PyStr.split sep a = [a].
Proof.
  induction a as [|c a IH]; simpl; [done|].
  destruct (Ascii.eqb c sep); simpl; [done|]. intros Ha. by rewrite (IH Ha).
Qed.

Lemma split_nonempty sep s : PyStr.split sep s <> [].
Proof.
  destruct s as [|c s]; simpl; [done|].
  destruct (Ascii.eqb c sep); [done|]. by destruct (PyStr.split sep s).
Qed.

Lemma concat_cons_cons sep x y (l : list string) :
  String.concat sep (x :: y :: l) = x +:+ sep +:+ String.concat sep (y :: l).
Proof. reflexivity. Qed.

Lemma join_split sep s :
  PyStr.join (String sep "") (PyStr.split sep s) = s.
Proof.
  unfold PyStr.join. induction s as [|c s IH]; [done|].
  pose proof (split_nonempty sep s) as Hne.
  cbn [PyStr.split].
  destruct (PyStr.split sep s) as [|w ws] eqn:E; [done|].
  destruct (Ascii.eqb_spec c sep) as [->|Hc].
  - rewrite concat_cons_cons, IH. reflexivity.
  - rewrite <- IH. destruct ws as [|w' ws]; [reflexivity|].
    by rewrite !concat_cons_cons.
Qed.

(** ** Address-range expansion *)

Import ipaddress ipaddress_facts.

Lemma ip_network_shape cidr net :
  ip_network cidr = Return net ->
  let v := net_version net in
  0 <= _prefixlen net <= _max_prefixlen v /\
  _ip (broadcast_address net) =
    _ip (network_address net) + 2 ^ (_max_prefixlen v - _prefixlen net) - 1 /\
  IPvAddress v (List.hd "" (PyStr.split "/" cidr)) = Return (addr_given net).
Proof.
  intros (v & Hv)%ip_network_inv.
  destruct (IPvNetwork_inv _ _ _ Hv) as (Hver & Hp & Hnm & Hna & Hgiven).
  simpl. rewrite Hver. repeat split; try done; try lia.
  by apply broadcast_is_network_plus_size.
Qed.

Lemma digits_hold_no_dot s :
  forallb PyStr.is_digit (PyStr.chars s) = true -> PyStr.contains "." s = false.
Proof.
  induction s as [|c s IH]; simpl; [done|].
  intros [Hc Hs]%andb_true_iff. rewrite (IH Hs), orb_false_r.
  destruct (Ascii.eqb_spec c ".") as [->|]; [|done].
  vm_compute in Hc. discriminate.
Qed.

(** A mask made of decimal digits is read as a prefix length, never as a
    dotted netmask. *)
Lemma _make_netmask_digits v s nm p :
  PyStr.isascii_isdigit s = true ->
  _make_netmask v (MaskStr s) = Return (nm, p) ->
  PyStr.int10 s = Return p.
Proof.
  intros Hd Hm.
  assert (Hstr : forall w q, _prefix_from_prefix_string w s = Return q ->
                             PyStr.int10 s = Return q).
  { intros w q. unfold _prefix_from_prefix_string. rewrite Hd. simpl.
    destruct (PyStr.int10 s) as [n|]; [|done].
    destruct (negb _); [done|]. by intros [= <-]. }
  unfold _make_netmask in Hm.
  match type of Hm with mbind _ ?m = _ => destruct m as [q|e0] eqn:Ep end;
    simpl in Hm; simplify_eq.
  destruct v; [|by eapply Hstr].
  destruct (_prefix_from_prefix_string V4 s) as [q|e1] eqn:E1.
  - simplify_eq. by eapply Hstr.
  - destruct e1; simplify_eq.
    unfold _prefix_from_ip_string, _ip_int_from_string, v4_ip_int_from_string in Ep.
    apply andb_true_iff in Hd as [Hne Hall].
    apply negb_true_iff in Hne. rewrite Hne in Ep.
    rewrite (split_no_sep _ _ (digits_hold_no_dot _ Hall)) in Ep. simpl in Ep. done.
Qed.

Lemma netmask_testbit v p i :
  0 <= p <= _max_prefixlen v -> 0 <= i ->
  Z.testbit (_ip_int_from_prefix v p) i
  = (_max_prefixlen v - p <=? i) && (i <? _max_prefixlen v).
Proof.
  intros Hp Hi. unfold _ip_int_from_prefix.
  rewrite _ALL_ONES_ones, shiftr_ones by done.
  rewrite Z.lxor_spec, !Z.testbit_ones_nonneg by lia.
  destruct (Z.ltb_spec i (_max_prefixlen v)), (Z.ltb_spec i (_max_prefixlen v - p)),
           (Z.leb_spec (_max_prefixlen v - p) i); simpl; try done; lia.
Qed.

(** What a parsed network has read from its text when the text carries a
    mask. *)
Lemma ip_network_reads_text cidr net :
  ip_network cidr = Return net ->
  _prefixlen net < _max_prefixlen (net_version net) ->
  let v := net_version net in
  exists addr_text mask_text,
    cidr = addr_text +:+ String "/" mask_text /\
    IPvAddress v addr_text = Return (addr_given net) /\
    _make_netmask v (MaskStr mask_text) = Return (netmask net, _prefixlen net) /\
    (PyStr.isascii_isdigit mask_text = true ->
     PyStr.int10 mask_text = Return (_prefixlen net)).
Proof.
  intros (v & Hv)%ip_network_inv Hlt.
  unfold IPvNetwork, _split_addr_prefix, _split_optional_netmask in Hv.
  pose proof (join_split "/" cidr) as Hjoin.
  pose proof (_max_prefixlen_pos v) as Hm.
  destruct (PyStr.split "/" cidr) as [|a [|m [|? ?]]] eqn:Es; simpl in Hv;
    try done.
  - by destruct (split_nonempty "/" cidr).
  - destruct (IPvAddress v a) as [x|]; simpl in Hv; [|done].
    destruct (_make_netmask v (MaskInt (_max_prefixlen v))) as [[nm p]|] eqn:Em;
      simpl in Hv; [|done].
    unfold _make_netmask in Em.
    destruct (negb _); simpl in Em; [done|].
    simplify_eq. simpl in Hlt. lia.
  - destruct (IPvAddress v a) as [x|] eqn:Ea; simpl in Hv; [|done].
    destruct (_make_netmask v (MaskStr m)) as [[nm p]|] eqn:Em; simpl in Hv; [|done].
    injection Hv as <-. simpl. exists a, m.
    split; [by rewrite <- Hjoin|]. split; [done|]. split; [done|].
    intros Hd. by eapply _make_netmask_digits.
Qed.

(** C4. For every valid CIDR string whose prefix is shorter than the
    address width, the expansion lists addresses of the network's family
    in strictly ascending numeric order.  With at least two host bits the
    hosts are exactly the addresses strictly between the network address
    and the last address of the range for IPv4 (network and broadcast
    excluded), and those above the network address up to the last one for
    IPv6, which has no broadcast address; with one host bit (/31, /127),
    where neither is defined, they are the two addresses of the range.
    The range is the one the string names: the string is an address text,
    a slash and a mask text; the address text parses to the address the
    network was built from, the mask text to its netmask and prefix length
    (the number itself when the mask is written in digits); and the
    network address is that address with its host bits cleared. *)
Theorem hosts_ascending_without_network_and_broadcast cidr net :
  ip_network cidr = Return net ->
  _prefixlen net < _max_prefixlen (net_version net) ->
  let v := net_version net in
  let network := _ip (network_address net) in
  let broadcast := _ip (broadcast_address net) in
  let ips := _ip <$> hosts net in
  sweep_hosts net = address_str <$> hosts net /\
  Forall (fun a => addr_version a = v) (hosts net) /\
  StronglySorted Z.lt ips /\
  broadcast = network + 2 ^ (_max_prefixlen v - _prefixlen net) - 1 /\
  (_prefixlen net <= _max_prefixlen v - 2 -> v = V4 ->
   (forall x, x ∈ ips <-> network < x < broadcast) /\
   (network ∉ ips) /\ (broadcast ∉ ips) /\
   length ips = Z.to_nat (2 ^ (_max_prefixlen v - _prefixlen net) - 2)) /\
  (_prefixlen net <= _max_prefixlen v - 2 -> v = V6 ->
   (forall x, x ∈ ips <-> network < x <= broadcast) /\ (network ∉ ips)) /\
  (_prefixlen net = _max_prefixlen v - 1 -> ips = [network; broadcast]) /\
  (exists addr_text mask_text,
     cidr = addr_text +:+ String "/" mask_text /\
     IPvAddress v addr_text = Return (addr_given net) /\
     _make_netmask v (MaskStr mask_text) = Return (netmask net, _prefixlen net) /\
     (PyStr.isascii_isdigit mask_text = true ->
      PyStr.int10 mask_text = Return (_prefixlen net))) /\
  0 <= _prefixlen net /\
  (forall i, 0 <= i ->
     Z.testbit network i
     = Z.testbit (_ip (addr_given net)) i
       && ((_max_prefixlen v - _prefixlen net <=? i) && (i <? _max_prefixlen v))).
Proof.
  intros Hnet Hlt v network broadcast ips.
  destruct (ip_network_shape _ _ Hnet) as (Hp & Hb & _).
  pose proof (ip_network_reads_text _ _ Hnet Hlt) as Htext.
  destruct (ip_network_inv _ _ Hnet) as (v' & Hv').
  destruct (IPvNetwork_inv _ _ _ Hv') as (Hver & _ & Hnm & Hna & _).
  fold network broadcast in Hb. subst v.
  set (m := _max_prefixlen (net_version net)) in *.
  set (p := _prefixlen net) in *.
  assert (Hips :
    ips = if p =? m - 1
          then PyStr.range network (broadcast + 1)
          else match net_version net with
               | V4 => PyStr.range (network + 1) broadcast
               | V6 => PyStr.range (network + 1) (broadcast + 1)
               end).
  { unfold ips, hosts. fold network broadcast m p.
    destruct (p =? m - 1); [apply _ip_fmap_addresses|].
    destruct (Z.eqb_spec p m) as [|_]; [lia|].
    destruct (net_version net); apply _ip_fmap_addresses. }
  split; [done|].
  split; [|split; [|split; [done|split; [|split; [|split; [|split; [|split]]]]]]].
  - unfold hosts. fold network broadcast m p.
    destruct (p =? m - 1); [by apply Forall_fmap, Forall_true|].
    destruct (Z.eqb_spec p m) as [|_]; [lia|].
    destruct (net_version net); by apply Forall_fmap, Forall_true.
  - rewrite Hips. repeat case_match; apply range_sorted.
  - intros Hp2 Hv4. rewrite Hips, Hv4.
    destruct (Z.eqb_spec p (m - 1)) as [|_]; [lia|].
    assert (Hin : forall x, x ∈ PyStr.range (network + 1) broadcast <->
                            network < x < broadcast).
    { intros x. rewrite elem_of_range. lia. }
    split; [done|]. split; [rewrite Hin; lia|]. split; [rewrite Hin; lia|].
    unfold PyStr.range. rewrite length_fmap, length_seq. f_equal. lia.
  - intros Hp2 Hv6. rewrite Hips, Hv6.
    destruct (Z.eqb_spec p (m - 1)) as [|_]; [lia|].
    assert (Hin : forall x, x ∈ PyStr.range (network + 1) (broadcast + 1) <->
                            network < x <= broadcast).
    { intros x. rewrite elem_of_range. lia. }
    split; [done|]. rewrite Hin. lia.
  - intros Hp1. rewrite Hips.
    destruct (Z.eqb_spec p (m - 1)) as [_|]; [|lia].
    rewrite Hb, Hp1.
    replace (m - (m - 1)) with 1 by lia.
    change (2 ^ 1) with 2.
    replace (network + 2 - 1 + 1) with (network + 2) by lia.
    rewrite range_two. f_equal. f_equal. lia.
  - exact Htext.
  - lia.
  - intros i Hi. unfold network. rewrite Hna, Z.land_spec, Hnm. f_equal.
    subst v'. by apply netmask_testbit.
Qed.

Lemma hosts_ascending_without_network_and_broadcast_witness :
  ip_network "192.168.1.77/30" = Return net_192_168_1_77_30 /\
  _prefixlen net_192_168_1_77_30 < _max_prefixlen (net_version net_192_168_1_77_30) /\
  sweep_hosts net_192_168_1_77_30 = ["192.168.1.77"; "192.168.1.78"] /\
  _ip <$> hosts net_192_168_1_77_30 = [3232235853; 3232235854] /\
  _ip (network_address net_192_168_1_77_30) = 3232235852 /\
  _ip (broadcast_address net_192_168_1_77_30) = 3232235855 /\
  StronglySorted Z.lt (_ip <$> hosts net_192_168_1_77_30) /\
  (_ip (network_address net_192_168_1_77_30) ∉ _ip <$> hosts net_192_168_1_77_30) /\
  (_ip (broadcast_address net_192_168_1_77_30) ∉ _ip <$> hosts net_192_168_1_77_30) /\
  exists addr_text mask_text,
    "192.168.1.77/30" = addr_text +:+ String "/" mask_text /\
    IPvAddress V4 addr_text = Return (addr_given net_192_168_1_77_30) /\
    _make_netmask V4 (MaskStr mask_text)
      = Return (netmask net_192_168_1_77_30, _prefixlen net_192_168_1_77_30) /\
    (PyStr.isascii_isdigit mask_text = true ->
     PyStr.int10 mask_text = Return (_prefixlen net_192_168_1_77_30)).
Proof.
  assert (Hlt : _prefixlen net_192_168_1_77_30
                < _max_prefixlen (net_version net_192_168_1_77_30))
    by (vm_compute; reflexivity).
  destruct (hosts_ascending_without_network_and_broadcast "192.168.1.77/30"
              net_192_168_1_77_30 ltac:(vm_compute; reflexivity) Hlt)
    as (_ & _ & Hsorted & _ & H4 & _ & _ & Htext & _).
  destruct (H4 ltac:(vm_compute; discriminate) eq_refl) as (_ & Hn & Hb & _).
  split; [vm_compute; reflexivity|]. split; [exact Hlt|].
  split; [vm_compute; reflexivity|]. split; [vm_compute; reflexivity|].
  split; [vm_compute; reflexivity|]. split; [vm_compute; reflexivity|].
  split; [exact Hsorted|]. split; [exact Hn|]. split; [exact Hb|exact Htext].
Defined.



(** C5. When [ip_network] rejects the CIDR string, [sweep_network] raises
    that [ValueError] at once: nothing has been logged, [subprocess.run]
    has not been called (no process has been started) and no list is
    returned; [main] does not catch it, so the process ends on a traceback
    with a non-zero status. *)
Theorem malformed_cidr_raises_before_probing env cidr e threads timeout_ms quiet
    sched :
  ip_network cidr = Raise e ->
  (exists msg, e = ValueError msg) /\
  sweep_network env cidr threads timeout_ms quiet sched
    = Some (SweepOutcome (Raise e) [] []) /\
  main env (Namespace cidr threads timeout_ms quiet) sched
    = Some (MainOutcome (Traceback e) [] []) /\
  exit_status (Traceback e) <> 0.
Proof.
  intros Hbad. destruct (ip_network_raises _ _ Hbad) as [msg ->].
  split; [by exists msg|].
  unfold main, sweep_network. simpl. rewrite Hbad. simpl. done.
Qed.

Lemma malformed_cidr_raises_before_probing_witness :
  ip_network "not-a-network"
    = Raise (ValueError
               "'not-a-network' does not appear to be an IPv4 or IPv6 network") /\
  sweep_network env_all_up "not-a-network" 32 300 false in_order_schedule
    = Some (SweepOutcome
              (Raise (ValueError
                 "'not-a-network' does not appear to be an IPv4 or IPv6 network"))
              [] []) /\
  (main_end <$> main env_all_up (Namespace "not-a-network" 32 300 false)
                     in_order_schedule)
    = Some (Traceback (ValueError
              "'not-a-network' does not appear to be an IPv4 or IPv6 network")).
Proof.
  destruct (malformed_cidr_raises_before_probing env_all_up "not-a-network"
              (ValueError
                 "'not-a-network' does not appear to be an IPv4 or IPv6 network")
              32 300 false in_order_schedule ltac:(vm_compute; reflexivity))
    as (_ & Hsweep & Hmain & _).
  split; [vm_compute; reflexivity|]. split; [exact Hsweep|].
  by rewrite Hmain.
Defined.

(** * Further properties of the program *)

(** ** The calls of [subprocess.run] a sweep makes *)

Lemma elem_of_probe_calls env ip timeout_ms cmd :
  cmd ∈ probe_calls (ping_once env ip timeout_ms) <->
  get_ping_command env ip timeout_ms = Return cmd.
Proof.
  unfold ping_once.
  destruct (get_ping_command env ip timeout_ms) as [c|e]; simpl.
  - rewrite list_elem_of_singleton. split; [by intros ->|by intros [= ->]].
  - split; [by intros ?%elem_of_nil|done].
Qed.

Lemma length_probe_calls env ip timeout_ms :
  (length (probe_calls (ping_once env ip timeout_ms)) <= 1)%nat.
Proof.
  unfold ping_once. by destruct (get_ping_command env ip timeout_ms); simpl; lia.
Qed.

Lemma length_bind_le {A B : Type} (g : A -> list B) (l : list A) :
  (forall x, length (g x) <= 1)%nat -> (length (l ≫= g) <= length l)%nat.
Proof.
  intros Hg. induction l as [|x l IH]; csimpl; [done|].
  rewrite length_app. specialize (Hg x). lia.
Qed.

Lemma sweep_network_calls env cidr net threads timeout_ms quiet sched out :
  ipaddress.ip_network cidr = Return net -> 1 <= threads ->
  sweep_network env cidr threads timeout_ms quiet sched = Some out ->
  sweep_calls out
    ≡ₚ sweep_hosts net ≫= (fun ip => probe_calls (ping_once env ip timeout_ms)).
Proof.
  intros Hnet Hth Hout.
  destruct (sweep_network_valid _ _ _ _ _ _ _ _ Hnet Hth Hout)
    as (st & Hrun & Hend & ->).
  pose proof (run_Inv env timeout_ms quiet cidr _ threads Hth sched st Hrun) as HI.
  by destruct (Inv_all_yielded _ _ _ _ _ _ _ _ HI Hend) as (_ & _ & _ & _ & Hsp).
Qed.

(** X1. The calls of [subprocess.run] of a finished sweep are those of
    one call of [ping_once] per host of the range, in the order in which
    the workers made them, which is any order: the command lines handed to
    [subprocess.run] are a permutation of the calls of the hosts; a
    command line was handed over exactly when it is the ping command of a
    host of the range; and there are at most as many as hosts. *)
Theorem sweep_runs_the_pings_of_the_hosts env cidr net threads timeout_ms quiet
    sched out :
  ipaddress.ip_network cidr = Return net -> 1 <= threads ->
  sweep_network env cidr threads timeout_ms quiet sched = Some out ->
  sweep_calls out
    ≡ₚ sweep_hosts net ≫= (fun ip => probe_calls (ping_once env ip timeout_ms)) /\
  (forall cmd,
      cmd ∈ sweep_calls out <->
      exists ip, ip ∈ sweep_hosts net /\
                 get_ping_command env ip timeout_ms = Return cmd) /\
  (length (sweep_calls out) <= length (sweep_hosts net))%nat.
Proof.
  intros Hnet Hth Hout.
  destruct (sweep_network_valid _ _ _ _ _ _ _ _ Hnet Hth Hout)
    as (st & Hrun & Hend & ->).
  pose proof (run_Inv env timeout_ms quiet cidr _ threads Hth sched st Hrun) as HI.
  destruct (Inv_all_yielded _ _ _ _ _ _ _ _ HI Hend) as (_ & _ & _ & _ & Hsp).
  cbn [sweep_calls]. split; [done|]. split.
  - intros cmd. rewrite Hsp, list_elem_of_bind. split.
    + intros (ip & Hcmd & Hip). exists ip. split; [done|].
      by apply elem_of_probe_calls.
    + intros (ip & Hip & Hcmd). exists ip. split; [|done].
      by apply elem_of_probe_calls.
  - rewrite Hsp. apply length_bind_le. intros ip. apply length_probe_calls.
Qed.

Lemma sweep_runs_the_pings_of_the_hosts_witness :
  ipaddress.ip_network "192.168.1.0/30" = Return net_192_168_1_0_30 /\
  1 <= 2 /\
  (sweep_calls <$> sweep_network env_all_up "192.168.1.0/30" 2 300 false
                       [Submit; Submit; WorkerGet; WorkerGet; WorkerCall 1;
                        WorkerCall 0; WorkerDone 0; WorkerDone 1; Yield 0;
                        Yield 1]%nat)
    = Some [["ping"; "-c"; "1"; "-W"; "1"; "192.168.1.2"];
            ["ping"; "-c"; "1"; "-W"; "1"; "192.168.1.1"]] /\
  forall out,
    sweep_network env_all_up "192.168.1.0/30" 2 300 false
      [Submit; Submit; WorkerGet; WorkerGet; WorkerCall 1; WorkerCall 0;
       WorkerDone 0; WorkerDone 1; Yield 0; Yield 1]%nat
      = Some out ->
    sweep_calls out
      ≡ₚ sweep_hosts net_192_168_1_0_30
           ≫= (fun ip => probe_calls (ping_once env_all_up ip 300)).
Proof.
  split; [vm_compute; reflexivity|]. split; [lia|].
  split; [vm_compute; reflexivity|].
  intros out Hout.
  exact (proj1 (sweep_runs_the_pings_of_the_hosts env_all_up "192.168.1.0/30"
                  net_192_168_1_0_30 2 300 false _ out
                  ltac:(vm_compute; reflexivity) ltac:(lia) Hout)).
Defined.

(** ** What a sweep logs *)

Lemma filter_bind {A B : Type} (P : B -> Prop) `{forall x, Decision (P x)}
    (g : A -> list B) (l : list A) :
  filter P (l ≫= g) = l ≫= (fun x => filter P (g x)).
Proof.
  induction l as [|x l IH]; csimpl; [done|]. by rewrite filter_app, IH.
Qed.

Lemma bind_singleton_fmap {A B : Type} (g : A -> B) (l : list A) :
  l ≫= (fun x => [g x]) = g <$> l.
Proof. induction l as [|x l IH]; csimpl; [done|]. by rewrite IH. Qed.

Lemma bind_nil_const {A B : Type} (l : list A) :
  l ≫= (fun _ => @nil B) = [].
Proof. induction l as [|x l IH]; csimpl; done. Qed.

Lemma status_records_of env timeout_ms quiet H f :
  filter (fun r => is_status_record r) (records_of env timeout_ms quiet H f) =
  if quiet then [] else [status_record (entry_of env timeout_ms quiet H f)].
Proof.
  unfold records_of, entry_of, loop_body.
  destruct (outcome_of env timeout_ms H f) as [up|exc], quiet; simpl; done.
Qed.

Lemma sweep_network_log env cidr net threads timeout_ms quiet sched out :
  ipaddress.ip_network cidr = Return net -> 1 <= threads ->
  sweep_network env cidr threads timeout_ms quiet sched = Some out ->
  let H := sweep_hosts net in
  yields sched ≡ₚ seq 0 (length H) /\
  sweep_value out = Return (entry_of env timeout_ms quiet H <$> yields sched) /\
  sweep_log out =
    start_record cidr H threads ::
    (yields sched ≫= records_of env timeout_ms quiet H).
Proof.
  intros Hnet Hth Hout H.
  destruct (sweep_network_valid _ _ _ _ _ _ _ _ Hnet Hth Hout)
    as (st & Hrun & Hend & ->).
  pose proof (run_Inv env timeout_ms quiet cidr _ threads Hth sched st Hrun) as HI.
  destruct (Inv_all_yielded _ _ _ _ _ _ _ _ HI Hend) as (Hy & Hres & Hlog & _ & _).
  simpl. by rewrite Hres, Hlog.
Qed.

(** X2. Unless [quiet] is set, a finished sweep has logged exactly one
    "<ip> is UP/DOWN" record per returned entry, in the order of the
    returned list and with the status of that entry; with [quiet] it has
    logged none. *)
Theorem status_lines_follow_the_result env cidr net threads timeout_ms quiet
    sched out :
  ipaddress.ip_network cidr = Return net -> 1 <= threads ->
  sweep_network env cidr threads timeout_ms quiet sched = Some out ->
  exists entries,
    sweep_value out = Return entries /\
    filter (fun r => is_status_record r) (sweep_log out) =
    if quiet then [] else status_record <$> entries.
Proof.
  intros Hnet Hth Hout.
  destruct (sweep_network_log _ _ _ _ _ _ _ _ Hnet Hth Hout) as (_ & Hval & Hlog).
  eexists. split; [exact Hval|]. rewrite Hlog.
  rewrite filter_cons_False by (simpl; auto).
  rewrite filter_bind.
  erewrite list_bind_ext; [|intros f; apply status_records_of|reflexivity].
  destruct quiet.
  - apply bind_nil_const.
  - by rewrite bind_singleton_fmap, <- list_fmap_compose.
Qed.

Lemma status_lines_follow_the_result_witness :
  ipaddress.ip_network "192.168.1.0/30" = Return net_192_168_1_0_30 /\
  1 <= 2 /\
  forall out,
    sweep_network env_no_ping "192.168.1.0/30" 2 300 false reversed_schedule
      = Some out ->
    exists entries,
      sweep_value out = Return entries /\
      filter (fun r => is_status_record r) (sweep_log out) =
      status_record <$> entries.
Proof.
  split; [vm_compute; reflexivity|]. split; [lia|].
  intros out Hout.
  exact (status_lines_follow_the_result env_no_ping "192.168.1.0/30"
           net_192_168_1_0_30 2 300 false reversed_schedule out
           ltac:(vm_compute; reflexivity) ltac:(lia) Hout).
Defined.

(** X3. A finished sweep has logged the error record of a host and an
    exception exactly when that host is in the range and its probe raised
    that exception; [quiet] does not suppress these records. *)
Theorem error_records_are_the_raised_probes env cidr net threads timeout_ms quiet
    sched out ip exc :
  ipaddress.ip_network cidr = Return net -> 1 <= threads ->
  sweep_network env cidr threads timeout_ms quiet sched = Some out ->
  error_record ip exc ∈ sweep_log out <->
  ip ∈ sweep_hosts net /\ probe_value (ping_once env ip timeout_ms) = Raise exc.
Proof.
  intros Hnet Hth Hout.
  destruct (sweep_network_log _ _ _ _ _ _ _ _ Hnet Hth Hout) as (Hy & _ & Hlog).
  rewrite Hlog. split.
  - intros [Hstart|Hin]%elem_of_cons; [done|].
    apply list_elem_of_bind in Hin as (f & Hf & Hfy).
    rewrite Hy in Hfy. apply elem_of_seq in Hfy as [_ Hlt]. simpl in Hlt.
    destruct (lookup_lt_is_Some_2 (sweep_hosts net) f Hlt) as [h Hh].
    unfold records_of, outcome_of, host_of, loop_body in Hf. rewrite Hh in Hf.
    simpl in Hf.
    destruct (probe_value (ping_once env h timeout_ms)) as [up|e] eqn:Hping;
      simpl in Hf.
    + destruct quiet; simpl in Hf; [by apply elem_of_nil in Hf|].
      apply list_elem_of_singleton in Hf. done.
    + apply elem_of_cons in Hf as [Heq|Hf].
      * injection Heq as -> ->. split; [|done]. by eapply list_elem_of_lookup_2.
      * destruct quiet; simpl in Hf; [by apply elem_of_nil in Hf|].
        apply list_elem_of_singleton in Hf. done.
  - intros [Hip Hping]. apply elem_of_cons. right.
    apply list_elem_of_lookup in Hip as [f Hf].
    apply list_elem_of_bind. exists f. split.
    + unfold records_of, outcome_of, host_of. rewrite Hf. simpl. rewrite Hping.
      simpl. by left.
    + rewrite Hy. apply elem_of_seq. split; [lia|]. simpl.
      by eapply lookup_lt_Some.
Qed.

Lemma error_records_are_the_raised_probes_witness :
  ipaddress.ip_network "192.168.1.0/30" = Return net_192_168_1_0_30 /\
  1 <= 2 /\
  forall out,
    sweep_network env_denied "192.168.1.0/30" 2 300 true in_order_schedule
      = Some out ->
    error_record "192.168.1.1" PermissionError ∈ sweep_log out <->
    "192.168.1.1" ∈ sweep_hosts net_192_168_1_0_30 /\
    probe_value (ping_once env_denied "192.168.1.1" 300) = Raise PermissionError.
Proof.
  split; [vm_compute; reflexivity|]. split; [lia|].
  intros out Hout.
  exact (error_records_are_the_raised_probes env_denied "192.168.1.0/30"
           net_192_168_1_0_30 2 300 true in_order_schedule out "192.168.1.1"
           PermissionError ltac:(vm_compute; reflexivity) ltac:(lia) Hout).
Defined.

(** ** [quiet] changes the log and nothing else *)

Lemma loop_body_entry quiet ip r :
  (loop_body quiet ip r).1 =
  (ip, match r with Return up => up | Raise _ => false end).
Proof. unfold loop_body. by destruct r. Qed.

Lemma step_same_but_log env timeout_ms q1 q2 st1 st2 st1' a :
  same_but_log st1 st2 ->
  step env timeout_ms q1 st1 a = Some st1' ->
  exists st2', step env timeout_ms q2 st2 a = Some st2' /\ same_but_log st1' st2'.
Proof.
  destruct st1 as [mw q sem th held run dn pend n futs res lg sp].
  destruct st2 as [mw2 qq sem2 th2 held2 run2 dn2 pend2 n2 futs2 res2 lg2 sp2].
  unfold same_but_log. simpl.
  intros (<- & <- & <- & <- & <- & <- & <- & <- & <- & <- & <- & <-).
  destruct a as [| |f|f|f]; simpl.
  - destruct pend as [|ip rest]; [done|].
    destruct sem; [destruct (Z.of_nat th <? mw)|]; intros [= <-];
      (eexists; split; [done|]); simpl; done.
  - destruct (decide _); [|done]. destruct q as [|[f ip] q]; [done|].
    intros [= <-]. eexists; split; [done|]. simpl. done.
  - destruct (take_item f held) as [[ip rest]|]; simpl; [|done].
    intros [= <-]. eexists; split; [done|]. simpl. done.
  - destruct (take_item f run) as [[ip rest]|]; simpl; [|done].
    intros [= <-]. eexists; split; [done|]. simpl. done.
  - destruct pend; [|done].
    destruct (take_item f dn) as [[r rest]|]; simpl; [|done].
    destruct (futs !! f) as [ip|]; simpl; [|done].
    pose proof (loop_body_entry q1 ip r) as H1.
    pose proof (loop_body_entry q2 ip r) as H2.
    destruct (loop_body q1 ip r) as [e1 r1], (loop_body q2 ip r) as [e2 r2].
    simpl in H1, H2. subst e1 e2.
    intros [= <-]. eexists; split; [done|]. simpl. done.
Qed.

Lemma run_same_but_log env timeout_ms q1 q2 sched : forall st1 st2 st1',
  same_but_log st1 st2 ->
  run env timeout_ms q1 st1 sched = Some st1' ->
  exists st2', run env timeout_ms q2 st2 sched = Some st2' /\ same_but_log st1' st2'.
Proof.
  induction sched as [|a sched IH]; intros st1 st2 st1' Hsame Hrun.
  - injection Hrun as <-. by exists st2.
  - rewrite run_cons in Hrun.
    destruct (step env timeout_ms q1 st1 a) as [s1|] eqn:Hstep; simpl in Hrun; [|done].
    destruct (step_same_but_log _ _ q1 q2 _ _ _ _ Hsame Hstep) as (s2 & Hstep2 & Hs).
    destruct (IH _ _ _ Hs Hrun) as (st2' & Hrun2 & Hs').
    exists st2'. split; [|done]. by rewrite run_cons, Hstep2.
Qed.

Lemma same_but_log_all_yielded st1 st2 :
  same_but_log st1 st2 -> all_yielded st1 = all_yielded st2.
Proof.
  unfold same_but_log, all_yielded.
  intros (_ & -> & _ & _ & -> & -> & -> & -> & _). done.
Qed.

Lemma sweep_network_quiet_one_way env cidr threads timeout_ms q1 q2 sched out1 :
  sweep_network env cidr threads timeout_ms q1 sched = Some out1 ->
  exists out2,
    sweep_network env cidr threads timeout_ms q2 sched = Some out2 /\
    sweep_value out2 = sweep_value out1 /\
    sweep_calls out2 = sweep_calls out1.
Proof.
  unfold sweep_network.
  destruct (ipaddress.ip_network cidr) as [net|e]; [|intros [= <-]; eauto].
  destruct (threads <=? 0); [intros [= <-]; eauto|].
  destruct (run env timeout_ms q1 _ sched) as [st1|] eqn:Hrun; simpl; [|done].
  destruct (run_same_but_log env timeout_ms q1 q2 sched _
              (initial_state cidr (sweep_hosts net) threads) _
              ltac:(unfold same_but_log; done) Hrun) as (st2 & Hrun2 & Hs).
  rewrite Hrun2. simpl. rewrite <- (same_but_log_all_yielded _ _ Hs).
  destruct (all_yielded st1); [|done]. intros [= <-].
  eexists. split; [done|]. simpl.
  destruct Hs as (_ & _ & _ & _ & _ & _ & _ & _ & _ & _ & -> & ->). done.
Qed.

(** X4. The [quiet] flag changes the log and nothing else: for every
    input and schedule, the sweep with [quiet] set and the sweep without it
    finish alike, return the same value or raise the same exception, and
    make the same calls of [subprocess.run] in the same order. *)
Theorem quiet_only_changes_the_log env cidr threads timeout_ms sched :
  (sweep_value <$> sweep_network env cidr threads timeout_ms true sched) =
  (sweep_value <$> sweep_network env cidr threads timeout_ms false sched) /\
  (sweep_calls <$> sweep_network env cidr threads timeout_ms true sched) =
  (sweep_calls <$> sweep_network env cidr threads timeout_ms false sched).
Proof.
  destruct (sweep_network env cidr threads timeout_ms true sched) as [o1|] eqn:E1.
  - destruct (sweep_network_quiet_one_way _ _ _ _ true false _ _ E1)
      as (o2 & Ho2 & Hv & Hs). rewrite Ho2. simpl. by rewrite Hv, Hs.
  - destruct (sweep_network env cidr threads timeout_ms false sched) as [o2|] eqn:E2;
      [|done].
    destruct (sweep_network_quiet_one_way _ _ _ _ false true _ _ E2)
      as (o1 & Ho1 & _). congruence.
Qed.

(** ** [main] on a valid range *)

Lemma length_filter_fmap {A B : Type} (P : B -> Prop) `{forall x, Decision (P x)}
    (f : A -> B) (l : list A) :
  length (filter P (f <$> l)) = length (filter (fun x => P (f x)) l).
Proof.
  induction l as [|x l IH]; [done|]. csimpl.
  rewrite !filter_cons. destruct (decide (P (f x))); simpl; by rewrite IH.
Qed.

(** X5. Whenever [main], on a valid CIDR string, ends normally (the sweep
    handed it a result list), whatever the thread count, the timeout, the
    behaviour of the probes and the completion order, its last log record
    is the summary, whose total is the number of hosts of the range and
    whose up-count is the number of hosts whose probe returned [True]; the
    up-count is at most the total, and the exit status is 0. *)
Theorem main_summary_counts_the_hosts env args net sched out :
  ipaddress.ip_network (arg_network args) = Return net ->
  main env args sched = Some out ->
  main_end out = ExitNormally ->
  let hosts := sweep_hosts net in
  let timeout_ms := Z.max 1 (arg_timeout args) in
  let up_count :=
    Z.of_nat (length (filter (fun ip => is_up env timeout_ms ip = true) hosts)) in
  let total := Z.of_nat (length hosts) in
  exit_status (main_end out) = 0 /\
  last (main_log out) = Some (summary_record up_count total) /\
  0 <= up_count <= total.
Proof.
  intros Hnet Hmain Hnormal hosts timeout_ms up_count total.
  split; [by rewrite Hnormal|].
  unfold main in Hmain.
  destruct (sweep_network env (arg_network args) (Z.max 1 (arg_threads args))
              (Z.max 1 (arg_timeout args)) (arg_quiet args) sched)
    as [o|] eqn:Hsweep; simpl in Hmain; [|done].
  assert (Hth : 1 <= Z.max 1 (arg_threads args)) by lia.
  destruct (sweep_network_valid _ _ _ _ _ _ _ _ Hnet Hth Hsweep)
    as (st & Hrun & Hend & ->).
  pose proof (run_Inv env _ _ (arg_network args) _ _ Hth sched st Hrun) as HI.
  destruct (Inv_all_yielded _ _ _ _ _ _ _ _ HI Hend) as (_ & _ & _ & Hres & _).
  simpl in Hmain. injection Hmain as <-. simpl.
  assert (Hup : length (filter (fun r : string * bool => r.2 = true) (results st))
                = length (filter (fun ip => is_up env timeout_ms ip = true) hosts)).
  { rewrite Hres. apply length_filter_fmap. }
  assert (Htot : length (results st) = length hosts)
    by (by rewrite Hres, length_fmap).
  split.
  - rewrite last_snoc. unfold summary_record, up_count, total.
    by rewrite Hup, Htot.
  - unfold up_count, total. pose proof (length_filter
      (fun ip => is_up env timeout_ms ip = true) hosts). lia.
Qed.

Lemma main_summary_counts_the_hosts_witness :
  ipaddress.ip_network (arg_network (Namespace "192.168.1.0/30" 0 (-5) true))
    = Return net_192_168_1_0_30 /\
  main env_no_ping (Namespace "192.168.1.0/30" 0 (-5) true)
       [Submit; Submit; WorkerGet; WorkerCall 0; WorkerDone 0; WorkerGet;
        WorkerCall 1; WorkerDone 1; Yield 1; Yield 0]%nat
    = Some (MainOutcome ExitNormally
              [start_record "192.168.1.0/30" ["192.168.1.1"; "192.168.1.2"] 1;
               error_record "192.168.1.2"
                 (RuntimeError "'ping' command not found on this system");
               error_record "192.168.1.1"
                 (RuntimeError "'ping' command not found on this system");
               summary_record 0 2]
              [["ping"; "-c"; "1"; "-W"; "1"; "192.168.1.1"];
               ["ping"; "-c"; "1"; "-W"; "1"; "192.168.1.2"]]) /\
  last [start_record "192.168.1.0/30" ["192.168.1.1"; "192.168.1.2"] 1;
        error_record "192.168.1.2"
          (RuntimeError "'ping' command not found on this system");
        error_record "192.168.1.1"
          (RuntimeError "'ping' command not found on this system");
        summary_record 0 2]
  = Some (summary_record
            (Z.of_nat (length (filter
               (fun ip => is_up env_no_ping (Z.max 1 (-5)) ip = true)
               (sweep_hosts net_192_168_1_0_30))))
            (Z.of_nat (length (sweep_hosts net_192_168_1_0_30)))).
Proof.
  assert (Hmain :
    main env_no_ping (Namespace "192.168.1.0/30" 0 (-5) true)
         [Submit; Submit; WorkerGet; WorkerCall 0; WorkerDone 0; WorkerGet;
          WorkerCall 1; WorkerDone 1; Yield 1; Yield 0]%nat
    = Some (MainOutcome ExitNormally
              [start_record "192.168.1.0/30" ["192.168.1.1"; "192.168.1.2"] 1;
               error_record "192.168.1.2"
                 (RuntimeError "'ping' command not found on this system");
               error_record "192.168.1.1"
                 (RuntimeError "'ping' command not found on this system");
               summary_record 0 2]
              [["ping"; "-c"; "1"; "-W"; "1"; "192.168.1.1"];
               ["ping"; "-c"; "1"; "-W"; "1"; "192.168.1.2"]]))
    by (vm_compute; reflexivity).
  split; [vm_compute; reflexivity|]. split; [exact Hmain|].
  exact (proj1 (proj2
    (main_summary_counts_the_hosts env_no_ping
       (Namespace "192.168.1.0/30" 0 (-5) true) net_192_168_1_0_30 _ _
       ltac:(vm_compute; reflexivity) Hmain eq_refl))).
Defined.

(** ** More on address-range expansion *)

Lemma length_range a b : length (PyStr.range a b) = Z.to_nat (b - a).
Proof. unfold PyStr.range. by rewrite length_fmap, length_seq. Qed.

(** X6. Every valid CIDR string expands to at least one host, and the
    number of hosts is fixed by the family and the prefix length [p] of
    the network of width [m]: 1 for [p = m], 2 for [p = m - 1], otherwise
    [2^(m-p) - 2] for IPv4 and [2^(m-p) - 1] for IPv6. *)
Theorem host_count_by_prefix cidr net :
  ip_network cidr = Return net ->
  let m := _max_prefixlen (net_version net) in
  let p := _prefixlen net in
  Z.of_nat (length (sweep_hosts net)) =
    (if p =? m then 1
     else if p =? m - 1 then 2
     else match net_version net with
          | V4 => 2 ^ (m - p) - 2
          | V6 => 2 ^ (m - p) - 1
          end) /\
  (1 <= length (sweep_hosts net))%nat.
Proof.
  intros Hnet m p.
  destruct (ip_network_shape _ _ Hnet) as (Hp & Hb & _). fold m p in Hp, Hb.
  assert (Hpow : p <= m - 2 -> 4 <= 2 ^ (m - p)).
  { intros. change 4 with (2 ^ 2). apply Z.pow_le_mono_r; lia. }
  assert (Hlen : Z.of_nat (length (sweep_hosts net)) =
    (if p =? m then 1 else if p =? m - 1 then 2
     else match net_version net with
          | V4 => 2 ^ (m - p) - 2 | V6 => 2 ^ (m - p) - 1 end)).
  { unfold sweep_hosts, hosts. rewrite length_fmap. fold m p.
    destruct (Z.eqb_spec p (m - 1)) as [Hp1|Hp1].
    - destruct (Z.eqb_spec p m) as [|_]; [lia|].
      rewrite length_fmap, length_range, Hb, Hp1.
      replace (m - (m - 1)) with 1 by lia. change (2 ^ 1) with 2. lia.
    - destruct (Z.eqb_spec p m) as [|Hpm]; [done|].
      destruct (net_version net); rewrite length_fmap, length_range, Hb; lia. }
  split; [done|].
  destruct (Z.eqb_spec p m); [lia|]. destruct (Z.eqb_spec p (m - 1)); [lia|].
  destruct (net_version net); lia.
Qed.

(** X7. With [strict=False] the host bits of the given address are
    cleared, not rejected: the network address has no bit of the host mask
    set and agrees with the given address under the netmask; and two CIDR
    strings of the same family and prefix length (shorter than the width)
    whose addresses agree under the netmask expand to the same hosts. *)
Theorem host_bits_are_ignored cidr1 cidr2 net1 net2 :
  ip_network cidr1 = Return net1 ->
  ip_network cidr2 = Return net2 ->
  net_version net1 = net_version net2 ->
  _prefixlen net1 = _prefixlen net2 ->
  _prefixlen net1 < _max_prefixlen (net_version net1) ->
  Z.land (_ip (addr_given net1)) (netmask net1) =
  Z.land (_ip (addr_given net2)) (netmask net2) ->
  Z.land (_ip (network_address net1)) (hostmask net1) = 0 /\
  _ip (network_address net1) = Z.land (_ip (addr_given net1)) (netmask net1) /\
  sweep_hosts net1 = sweep_hosts net2.
Proof.
  intros (v1 & Hv1)%ip_network_inv (v2 & Hv2)%ip_network_inv Hver Hpre Hlt Hland.
  destruct (IPvNetwork_inv _ _ _ Hv1) as (Hver1 & Hp1 & Hnm1 & Hna1 & _).
  destruct (IPvNetwork_inv _ _ _ Hv2) as (Hver2 & Hp2 & Hnm2 & Hna2 & _).
  assert (Hnet : _ip (network_address net1) = _ip (network_address net2))
    by congruence.
  assert (Hnm : netmask net1 = netmask net2) by congruence.
  split; [|split; [done|]].
  - rewrite (hostmask_ones net1 v1) by done.
    rewrite Hna1, Hnm1. unfold _ip_int_from_prefix.
    rewrite _ALL_ONES_ones, shiftr_ones by done.
    apply Z.bits_inj'. intros i Hi.
    rewrite !Z.land_spec, Z.lxor_spec, !Z.testbit_ones_nonneg, Z.bits_0 by lia.
    destruct (Z.ltb_spec i (_max_prefixlen v1)),
             (Z.ltb_spec i (_max_prefixlen v1 - _prefixlen net1)); simpl;
      rewrite ?andb_false_r; try done; lia.
  - unfold sweep_hosts, hosts. simpl. unfold hostmask.
    rewrite <- Hver, <- Hpre, <- Hnet, <- Hnm.
    destruct (_ =? _ - 1); [done|].
    destruct (Z.eqb_spec (_prefixlen net1) (_max_prefixlen (net_version net1)));
      [lia|done].
Qed.

Lemma host_bits_are_ignored_witness :
  ip_network "192.168.1.2/30" = Return net_192_168_1_2_30 /\
  ip_network "192.168.1.0/30" = Return net_192_168_1_0_30 /\
  _prefixlen net_192_168_1_2_30 < _max_prefixlen (net_version net_192_168_1_2_30) /\
  Z.land (_ip (addr_given net_192_168_1_2_30)) (netmask net_192_168_1_2_30) =
  Z.land (_ip (addr_given net_192_168_1_0_30)) (netmask net_192_168_1_0_30) /\
  sweep_hosts net_192_168_1_2_30 = sweep_hosts net_192_168_1_0_30.
Proof.
  assert (Hlt : _prefixlen net_192_168_1_2_30
                < _max_prefixlen (net_version net_192_168_1_2_30))
    by (vm_compute; reflexivity).
  split; [vm_compute; reflexivity|]. split; [vm_compute; reflexivity|].
  split; [exact Hlt|]. split; [reflexivity|].
  exact (proj2 (proj2
    (host_bits_are_ignored "192.168.1.2/30" "192.168.1.0/30"
       net_192_168_1_2_30 net_192_168_1_0_30
       ltac:(vm_compute; reflexivity) ltac:(vm_compute; reflexivity)
       eq_refl eq_refl Hlt eq_refl))).
Defined.

Lemma host_count_by_prefix_witness :
  ip_network "192.168.1.0/30" = Return net_192_168_1_0_30 /\
  Z.of_nat (length (sweep_hosts net_192_168_1_0_30)) = 2 ^ (32 - 30) - 2 /\
  (1 <= length (sweep_hosts net_192_168_1_0_30))%nat.
Proof.
  split; [vm_compute; reflexivity|].
  exact (host_count_by_prefix "192.168.1.0/30" net_192_168_1_0_30
           ltac:(vm_compute; reflexivity)).
Defined.

(** ** IPv4 text: printing and parsing *)

Lemma octet_text_ok_all k : 0 <= k <= 255 -> octet_text_ok k = true.
Proof.
  intros Hk.
  assert (Hall : forallb (fun i => octet_text_ok (Z.of_nat i)) (seq 0 256) = true)
    by (vm_compute; reflexivity).
  rewrite forallb_forall in Hall.
  specialize (Hall (Z.to_nat k)). rewrite Z2Nat.id in Hall by lia.
  apply Hall. apply in_seq. lia.
Qed.

Lemma octet_text_facts k :
  0 <= k <= 255 ->
  _parse_octet (PyStr.decimal k) = Return k /\
  PyStr.contains "." (PyStr.decimal k) = false /\
  PyStr.contains "/" (PyStr.decimal k) = false /\
  PyStr.decimal k <> "".
Proof.
  intros Hk%octet_text_ok_all. unfold octet_text_ok in Hk.
  apply andb_true_iff in Hk as [Hk Hne].
  apply andb_true_iff in Hk as [Hk Hslash].
  apply andb_true_iff in Hk as [Hk Hdot].
  apply negb_true_iff in Hne, Hslash, Hdot.
  destruct (_parse_octet (PyStr.decimal k)) as [r|]; [|done].
  apply Z.eqb_eq in Hk as ->.
  repeat split; try done. by apply String.eqb_neq.
Qed.

Lemma split_app_sep sep a b :
  PyStr.contains sep a = false ->
  PyStr.split sep (a +:+ String sep b) = a :: PyStr.split sep b.
Proof.
  induction a as [|c a IH]; simpl.
  - intros _. by rewrite Ascii.eqb_refl.
  - destruct (Ascii.eqb c sep); simpl; [done|]. intros Ha. by rewrite (IH Ha).
Qed.

Lemma contains_app sep a b :
  PyStr.contains sep (a +:+ b) = PyStr.contains sep a || PyStr.contains sep b.
Proof.
  induction a as [|c a IH]; simpl; [done|]. rewrite IH. by rewrite orb_assoc.
Qed.

Lemma v4_octets_spec n :
  0 <= n < 2 ^ 32 ->
  exists o0 o1 o2 o3,
    v4_octets n = [o0; o1; o2; o3] /\
    0 <= o0 <= 255 /\ 0 <= o1 <= 255 /\ 0 <= o2 <= 255 /\ 0 <= o3 <= 255 /\
    ((o0 * 256 + o1) * 256 + o2) * 256 + o3 = n.
Proof.
  intros Hn. unfold v4_octets. do 4 eexists. split; [reflexivity|].
  change 255 with (Z.ones 8).
  rewrite !Z.land_ones, !Z.shiftr_div_pow2 by lia.
  change (2 ^ 8) with 256. change (2 ^ 16) with (256 * 256).
  change (2 ^ 24) with (256 * (256 * 256)). change (2 ^ 32) with 4294967296 in Hn.
  rewrite <- !Z.div_div by lia. change (Z.ones 8) with 255.
  pose proof (Z.div_mod n 256 ltac:(lia)).
  pose proof (Z.mod_pos_bound n 256 ltac:(lia)).
  pose proof (Z.div_mod (n / 256) 256 ltac:(lia)).
  pose proof (Z.mod_pos_bound (n / 256) 256 ltac:(lia)).
  pose proof (Z.div_mod (n / 256 / 256) 256 ltac:(lia)).
  pose proof (Z.mod_pos_bound (n / 256 / 256) 256 ltac:(lia)).
  pose proof (Z.div_mod (n / 256 / 256 / 256) 256 ltac:(lia)).
  pose proof (Z.mod_pos_bound (n / 256 / 256 / 256) 256 ltac:(lia)).
  lia.
Qed.

Lemma ipv4_text_round_trip_aux n :
  0 <= n < 2 ^ 32 ->
  v4_string_from_ip_int n = address_str (Address V4 n None) /\
  IPv4Address (v4_string_from_ip_int n) = Return (Address V4 n None).
Proof.
  intros Hn. split; [done|].
  destruct (v4_octets_spec n Hn) as (o0 & o1 & o2 & o3 & Hoct & H0 & H1 & H2 & H3 & Hsum).
  destruct (octet_text_facts o0 H0) as (Hp0 & Hd0 & Hs0 & Hne0).
  destruct (octet_text_facts o1 H1) as (Hp1 & Hd1 & Hs1 & _).
  destruct (octet_text_facts o2 H2) as (Hp2 & Hd2 & Hs2 & _).
  destruct (octet_text_facts o3 H3) as (Hp3 & Hd3 & Hs3 & _).
  assert (Htext : v4_string_from_ip_int n =
                  PyStr.decimal o0 +:+ String "." (PyStr.decimal o1 +:+ String "."
                    (PyStr.decimal o2 +:+ String "." (PyStr.decimal o3)))).
  { unfold v4_string_from_ip_int. fold (v4_octets n). by rewrite Hoct. }
  unfold IPv4Address. rewrite Htext.
  rewrite !contains_app. simpl. rewrite !contains_app. simpl.
  rewrite !contains_app. simpl. rewrite Hs0, Hs1, Hs2, Hs3. simpl.
  unfold v4_ip_int_from_string.
  destruct (String.eqb_spec (PyStr.decimal o0 +:+ String "." (PyStr.decimal o1 +:+ String "."
              (PyStr.decimal o2 +:+ String "." (PyStr.decimal o3)))) "") as [Hempty|_].
  { destruct (PyStr.decimal o0); [done|discriminate]. }
  rewrite !split_app_sep, split_no_sep by done. simpl.
  rewrite Hp0. simpl. rewrite Hp1. simpl. rewrite Hp2. simpl. rewrite Hp3. simpl.
  do 2 f_equal. lia.
Qed.

(** X8. Printing then parsing an IPv4 address gives it back: for every
    32-bit integer [n], [IPv4Address(str(IPv4Address(n)))] is the address
    of [n]. *)
Theorem ipv4_text_round_trip n :
  0 <= n < 2 ^ 32 ->
  v4_string_from_ip_int n = address_str (Address V4 n None) /\
  IPv4Address (v4_string_from_ip_int n) = Return (Address V4 n None).
Proof.
  intros Hn. split; [done|].
  destruct (v4_octets_spec n Hn) as (o0 & o1 & o2 & o3 & Hoct & H0 & H1 & H2 & H3 & Hsum).
  destruct (octet_text_facts o0 H0) as (Hp0 & Hd0 & Hs0 & Hne0).
  destruct (octet_text_facts o1 H1) as (Hp1 & Hd1 & Hs1 & _).
  destruct (octet_text_facts o2 H2) as (Hp2 & Hd2 & Hs2 & _).
  destruct (octet_text_facts o3 H3) as (Hp3 & Hd3 & Hs3 & _).
  assert (Htext : v4_string_from_ip_int n =
                  PyStr.decimal o0 +:+ String "." (PyStr.decimal o1 +:+ String "."
                    (PyStr.decimal o2 +:+ String "." (PyStr.decimal o3)))).
  { unfold v4_string_from_ip_int. fold (v4_octets n). by rewrite Hoct. }
  unfold IPv4Address. rewrite Htext.
  rewrite !contains_app. simpl. rewrite !contains_app. simpl.
  rewrite !contains_app. simpl. rewrite Hs0, Hs1, Hs2, Hs3. simpl.
  unfold v4_ip_int_from_string.
  destruct (String.eqb_spec (PyStr.decimal o0 +:+ String "." (PyStr.decimal o1 +:+ String "."
              (PyStr.decimal o2 +:+ String "." (PyStr.decimal o3)))) "") as [Hempty|_].
  { destruct (PyStr.decimal o0); [done|discriminate]. }
  rewrite !split_app_sep, split_no_sep by done. simpl.
  rewrite Hp0. simpl. rewrite Hp1. simpl. rewrite Hp2. simpl. rewrite Hp3. simpl.
  do 2 f_equal. lia.
Qed.

Lemma ipv4_text_round_trip_witness :
  0 <= 3232235777 < 2 ^ 32 /\
  v4_string_from_ip_int 3232235777 = "192.168.1.1" /\
  IPv4Address "192.168.1.1" = Return (Address V4 3232235777 None).
Proof.
  assert (Hn : 0 <= 3232235777 < 2 ^ 32) by lia.
  split; [exact Hn|]. split; [vm_compute; reflexivity|].
  exact (proj2 (ipv4_text_round_trip 3232235777 Hn)).
Defined.

(** ** IPv4 hosts are pairwise distinct *)

Lemma fits_width m x : 0 <= m -> Z.land x (Z.ones m) = x -> 0 <= x < 2 ^ m.
Proof.
  intros Hm Hx. rewrite Z.land_ones in Hx by done. rewrite <- Hx.
  apply Z.mod_pos_bound. by apply Z.pow_pos_nonneg.
Qed.

Lemma block_fits_width net v :
  net_version net = v -> 0 <= _prefixlen net <= _max_prefixlen v ->
  netmask net = _ip_int_from_prefix v (_prefixlen net) ->
  _ip (network_address net) = Z.land (_ip (addr_given net)) (netmask net) ->
  0 <= _ip (network_address net) /\
  _ip (broadcast_address net) < 2 ^ _max_prefixlen v.
Proof.
  intros Hv Hp Hnm Hna.
  pose proof (_max_prefixlen_pos v) as Hm.
  assert (Hmask : forall i, 0 <= i -> _max_prefixlen v <= i ->
                            Z.testbit (netmask net) i = false).
  { intros i Hi Hge. rewrite Hnm. unfold _ip_int_from_prefix.
    rewrite _ALL_ONES_ones, shiftr_ones by done.
    rewrite Z.lxor_spec, !Z.testbit_ones_nonneg by lia.
    destruct (Z.ltb_spec i (_max_prefixlen v)),
             (Z.ltb_spec i (_max_prefixlen v - _prefixlen net)); try done; lia. }
  split.
  - apply (fits_width (_max_prefixlen v)); [lia|].
    apply Z.bits_inj'. intros i Hi.
    rewrite Z.land_spec, Z.testbit_ones_nonneg, Hna, Z.land_spec by lia.
    destruct (Z.ltb_spec i (_max_prefixlen v)); [by rewrite andb_true_r|].
    rewrite Hmask by lia. by rewrite !andb_false_r.
  - apply (fits_width (_max_prefixlen v)); [lia|].
    simpl. rewrite (hostmask_ones net v) by done.
    apply Z.bits_inj'. intros i Hi.
    rewrite Z.land_spec, Z.lor_spec, !Z.testbit_ones_nonneg, Hna, Z.land_spec by lia.
    destruct (Z.ltb_spec i (_max_prefixlen v)); [by rewrite andb_true_r|].
    rewrite Hmask by lia.
    destruct (Z.ltb_spec i (_max_prefixlen v - _prefixlen net)); [lia|].
    by rewrite !andb_false_r.
Qed.

Lemma NoDup_range a b : NoDup (PyStr.range a b).
Proof.
  unfold PyStr.range. apply NoDup_fmap_2; [|apply NoDup_seq].
  intros i j Hij. lia.
Qed.

Lemma sweep_network_entries env cidr net threads timeout_ms quiet sched out :
  ip_network cidr = Return net -> 1 <= threads ->
  sweep_network env cidr threads timeout_ms quiet sched = Some out ->
  exists entries,
    sweep_value out = Return entries /\
    entries ≡ₚ probe_entry env timeout_ms <$> sweep_hosts net.
Proof.
  intros Hnet Hth Hout.
  destruct (sweep_network_valid _ _ _ _ _ _ _ _ Hnet Hth Hout)
    as (st & Hrun & Hend & ->).
  pose proof (run_Inv env timeout_ms quiet cidr _ threads Hth sched st Hrun) as HI.
  destruct (Inv_all_yielded _ _ _ _ _ _ _ _ HI Hend) as (_ & _ & _ & Hres & _).
  by exists (results st).
Qed.

(** X9. The host strings of an IPv4 range are pairwise distinct, so a
    finished sweep of an IPv4 range returns no host twice. *)
Theorem ipv4_hosts_are_distinct env cidr net threads timeout_ms quiet sched out :
  ip_network cidr = Return net ->
  net_version net = V4 ->
  1 <= threads ->
  sweep_network env cidr threads timeout_ms quiet sched = Some out ->
  NoDup (sweep_hosts net) /\
  exists entries, sweep_value out = Return entries /\ NoDup entries.*1.
Proof.
  intros Hnet Hv4 Hth Hout.
  assert (Hnodup : NoDup (sweep_hosts net)).
  { destruct (ip_network_inv _ _ Hnet) as (v & Hv).
    destruct (IPvNetwork_inv _ _ _ Hv) as (Hver & Hp & Hnm & Hna & _).
    destruct (block_fits_width net v Hver Hp Hnm Hna) as [Hlo Hhi].
    assert (v = V4) as -> by congruence.
    unfold sweep_hosts, hosts. rewrite Hv4.
    set (network := _ip (network_address net)) in *.
    set (broadcast := _ip (broadcast_address net)) in *.
    assert (Hstr : forall a b,
      0 <= a -> b <= 2 ^ 32 ->
      NoDup (address_str <$> ((fun x => Address V4 x None) <$> PyStr.range a b))).
    { intros a b Ha Hb. rewrite <- list_fmap_compose.
      apply NoDup_fmap_2_strong; [|apply NoDup_range].
      intros x y Hx%elem_of_range Hy%elem_of_range Hxy.
      assert (Hrx : 0 <= x < 2 ^ 32) by lia.
      assert (Hry : 0 <= y < 2 ^ 32) by lia.
      destruct (ipv4_text_round_trip_aux x Hrx) as [Hsx Hpx].
      destruct (ipv4_text_round_trip_aux y Hry) as [Hsy Hpy].
      simpl in Hxy. rewrite <- Hsx, <- Hsy in Hxy. rewrite Hxy in Hpx.
      rewrite Hpx in Hpy. by injection Hpy. }
    change (_max_prefixlen V4) with 32 in *.
    destruct (_prefixlen net =? 32 - 1); [apply Hstr; lia|].
    destruct (_prefixlen net =? 32); [apply NoDup_singleton|].
    apply Hstr; lia. }
  split; [done|].
  destruct (sweep_network_entries _ _ _ _ _ _ _ _ Hnet Hth Hout)
    as (entries & Hval & Hperm).
  exists entries. split; [done|].
  rewrite Hperm, <- list_fmap_compose.
  rewrite (list_fmap_ext _ id (sweep_hosts net)) by done.
  by rewrite list_fmap_id.
Qed.

Lemma ipv4_hosts_are_distinct_witness :
  ip_network "192.168.1.0/30" = Return net_192_168_1_0_30 /\
  net_version net_192_168_1_0_30 = V4 /\
  1 <= 2 /\
  NoDup (sweep_hosts net_192_168_1_0_30) /\
  forall out,
    sweep_network env_all_up "192.168.1.0/30" 2 300 false reversed_schedule
      = Some out ->
    exists entries, sweep_value out = Return entries /\ NoDup entries.*1.
Proof.
  assert (Hout :
    sweep_network env_all_up "192.168.1.0/30" 2 300 false reversed_schedule
    = Some (SweepOutcome
              (Return [("192.168.1.2", true); ("192.168.1.1", true)])
              [start_record "192.168.1.0/30" ["192.168.1.1"; "192.168.1.2"] 2;
               status_record ("192.168.1.2", true);
               status_record ("192.168.1.1", true)]
              [["ping"; "-c"; "1"; "-W"; "1"; "192.168.1.1"];
               ["ping"; "-c"; "1"; "-W"; "1"; "192.168.1.2"]]))
    by (vm_compute; reflexivity).
  pose proof (ipv4_hosts_are_distinct env_all_up "192.168.1.0/30"
                net_192_168_1_0_30 2 300 false reversed_schedule _
                ltac:(vm_compute; reflexivity) eq_refl ltac:(lia) Hout)
    as [Hnodup Hentries].
  split; [vm_compute; reflexivity|]. split; [reflexivity|]. split; [lia|].
  split; [exact Hnodup|].
  intros out Hout'. rewrite Hout in Hout'. injection Hout' as <-. exact Hentries.
Defined.

(** ** IPv4 text: parsing and printing *)

Lemma short_digit_lists_ok : forallb octet_parse_ok short_digit_lists = true.
Proof. vm_compute. reflexivity. Qed.

Lemma is_digit_digit_char c :
  PyStr.is_digit c = true -> exists d, (d < 10)%nat /\ c = digit_char d.
Proof.
  unfold PyStr.is_digit. intros [Hlo Hhi]%andb_true_iff.
  apply Z.leb_le in Hlo, Hhi.
  exists (nat_of_ascii c - 48)%nat. unfold digit_char, nat_of_ascii. split; [lia|].
  replace (48 + (N.to_nat (N_of_ascii c) - 48))%nat with (nat_of_ascii c)
    by (unfold nat_of_ascii; lia).
  by rewrite ascii_nat_embedding.
Qed.

Lemma digits_of_chars cs :
  forallb PyStr.is_digit cs = true ->
  exists ds, Forall (fun d => d < 10)%nat ds /\ cs = digit_char <$> ds.
Proof.
  induction cs as [|c cs IH]; simpl.
  - intros _. by exists [].
  - intros [Hc Hcs]%andb_true_iff.
    destruct (is_digit_digit_char c Hc) as (d & Hd & ->).
    destruct (IH Hcs) as (ds & Hds & ->).
    exists (d :: ds). split; [by constructor|done].
Qed.

Lemma short_digit_lists_complete ds :
  Forall (fun d => d < 10)%nat ds -> (1 <= length ds <= 3)%nat ->
  ds ∈ short_digit_lists.
Proof.
  intros Hds Hlen. unfold short_digit_lists.
  assert (Hseq : forall d, (d < 10)%nat -> d ∈ seq 0 10)
    by (intros d Hd; apply elem_of_seq; lia).
  destruct ds as [|d1 [|d2 [|d3 [|? ?]]]]; simpl in Hlen; try lia.
  - apply Forall_cons in Hds as [H1 _].
    apply elem_of_app. left.
    apply list_elem_of_bind. exists d1. split; [by apply list_elem_of_singleton|auto].
  - apply Forall_cons in Hds as [H1 Hds]. apply Forall_cons in Hds as [H2 _].
    apply elem_of_app. right. apply elem_of_app. left.
    apply list_elem_of_bind. exists d1. split; [|auto].
    apply list_elem_of_bind. exists d2. split; [by apply list_elem_of_singleton|auto].
  - apply Forall_cons in Hds as [H1 Hds]. apply Forall_cons in Hds as [H2 Hds].
    apply Forall_cons in Hds as [H3 _].
    apply elem_of_app. right. apply elem_of_app. right.
    apply list_elem_of_bind. exists d1. split; [|auto].
    apply list_elem_of_bind. exists d2. split; [|auto].
    apply list_elem_of_bind. exists d3. split; [by apply list_elem_of_singleton|auto].
Qed.

Lemma length_chars s : length (PyStr.chars s) = String.length s.
Proof. unfold PyStr.chars. induction s; simpl; by f_equal. Qed.

Lemma _parse_octet_canonical o k :
  _parse_octet o = Return k -> PyStr.decimal k = o /\ 0 <= k <= 255.
Proof.
  intros Hparse. pose proof Hparse as Hp. unfold _parse_octet in Hp.
  destruct (String.eqb_spec o "") as [|Hne]; [done|].
  destruct (PyStr.isascii_isdigit o) eqn:Hdig; simpl in Hp; [|done].
  destruct (3 <? String.length o)%nat eqn:Hlen; [done|]. clear Hp.
  apply Nat.ltb_ge in Hlen.
  unfold PyStr.isascii_isdigit in Hdig. apply andb_true_iff in Hdig as [_ Hdig].
  destruct (digits_of_chars _ Hdig) as (ds & Hds & Hcs).
  assert (Ho : o = digits_text ds).
  { unfold digits_text. rewrite <- Hcs. unfold PyStr.chars.
    by rewrite string_of_list_ascii_of_string. }
  assert (Hl : (1 <= length ds <= 3)%nat).
  { rewrite <- (length_fmap digit_char), <- Hcs, length_chars.
    destruct o; [done|]. simpl in *. lia. }
  pose proof (short_digit_lists_complete ds Hds Hl) as Hin.
  pose proof short_digit_lists_ok as Hall. rewrite forallb_forall in Hall.
  apply list_elem_of_In in Hin. specialize (Hall ds Hin).
  unfold octet_parse_ok in Hall. rewrite <- Ho, Hparse in Hall.
  apply andb_true_iff in Hall as [Hall Hhi]. apply andb_true_iff in Hall as [Hstr Hlo].
  apply String.eqb_eq in Hstr. apply Z.leb_le in Hlo, Hhi. done.
Qed.

Lemma v4_octets_of_sum k0 k1 k2 k3 :
  0 <= k0 <= 255 -> 0 <= k1 <= 255 -> 0 <= k2 <= 255 -> 0 <= k3 <= 255 ->
  v4_octets (((k0 * 256 + k1) * 256 + k2) * 256 + k3) = [k0; k1; k2; k3].
Proof.
  intros H0 H1 H2 H3.
  destruct (v4_octets_spec (((k0 * 256 + k1) * 256 + k2) * 256 + k3))
    as (o0 & o1 & o2 & o3 & -> & ? & ? & ? & ? & Hsum); [lia|].
  assert (o3 = k3) by lia. assert (o2 = k2) by lia.
  assert (o1 = k1) by lia. assert (o0 = k0) by lia. by subst.
Qed.

Lemma IPv4Address_canonical_aux s a :
  IPv4Address s = Return a ->
  address_str a = s /\ addr_version a = V4 /\ _scope_id a = None /\
  0 <= _ip a < 2 ^ 32.
Proof.
  unfold IPv4Address. destruct (PyStr.contains "/" s); [done|].
  destruct (v4_ip_int_from_string s) as [n|] eqn:Hparse; simpl; [|done].
  intros [= <-]. simpl.
  unfold v4_ip_int_from_string in Hparse.
  destruct (String.eqb s ""); [done|].
  pose proof (join_split "." s) as Hjoin.
  destruct (PyStr.split "." s) as [|t0 [|t1 [|t2 [|t3 [|? ?]]]]]; try done.
  simpl in Hparse.
  destruct (_parse_octet t0) as [k0|] eqn:E0; simpl in Hparse; [|by destruct e].
  destruct (_parse_octet t1) as [k1|] eqn:E1; simpl in Hparse; [|by destruct e].
  destruct (_parse_octet t2) as [k2|] eqn:E2; simpl in Hparse; [|by destruct e].
  destruct (_parse_octet t3) as [k3|] eqn:E3; simpl in Hparse; [|by destruct e].
  injection Hparse as <-.
  destruct (_parse_octet_canonical _ _ E0) as [<- H0].
  destruct (_parse_octet_canonical _ _ E1) as [<- H1].
  destruct (_parse_octet_canonical _ _ E2) as [<- H2].
  destruct (_parse_octet_canonical _ _ E3) as [<- H3].
  split; [|split; [done|split; [done|change (2 ^ 32) with 4294967296; lia]]].
  unfold address_str, v4_string_from_ip_int. simpl.
  fold (v4_octets ((((0 * 256 + k0) * 256 + k1) * 256 + k2) * 256 + k3)).
  replace (0 * 256 + k0) with k0 by lia.
  pose proof (v4_octets_of_sum k0 k1 k2 k3 H0 H1 H2 H3) as Hoct.
  unfold v4_octets in Hoct. injection Hoct as -> -> -> ->. exact Hjoin.
Qed.

(** X10. An IPv4 text that [IPv4Address] accepts is the canonical text of
    its address: printing the parsed address gives the text back, and the
    address is a 32-bit integer. *)
Theorem ipv4_parse_then_print s a :
  IPv4Address s = Return a ->
  address_str a = s /\ 0 <= _ip a < 2 ^ 32.
Proof.
  unfold IPv4Address. destruct (PyStr.contains "/" s); [done|].
  destruct (v4_ip_int_from_string s) as [n|] eqn:Hparse; simpl; [|done].
  intros [= <-]. simpl.
  unfold v4_ip_int_from_string in Hparse.
  destruct (String.eqb s ""); [done|].
  pose proof (join_split "." s) as Hjoin.
  destruct (PyStr.split "." s) as [|t0 [|t1 [|t2 [|t3 [|? ?]]]]]; try done.
  simpl in Hparse.
  destruct (_parse_octet t0) as [k0|] eqn:E0; simpl in Hparse; [|by destruct e].
  destruct (_parse_octet t1) as [k1|] eqn:E1; simpl in Hparse; [|by destruct e].
  destruct (_parse_octet t2) as [k2|] eqn:E2; simpl in Hparse; [|by destruct e].
  destruct (_parse_octet t3) as [k3|] eqn:E3; simpl in Hparse; [|by destruct e].
  injection Hparse as <-.
  destruct (_parse_octet_canonical _ _ E0) as [<- H0].
  destruct (_parse_octet_canonical _ _ E1) as [<- H1].
  destruct (_parse_octet_canonical _ _ E2) as [<- H2].
  destruct (_parse_octet_canonical _ _ E3) as [<- H3].
  split; [|change (2 ^ 32) with 4294967296; lia].
  unfold address_str, v4_string_from_ip_int. simpl.
  fold (v4_octets ((((0 * 256 + k0) * 256 + k1) * 256 + k2) * 256 + k3)).
  replace (0 * 256 + k0) with k0 by lia.
  pose proof (v4_octets_of_sum k0 k1 k2 k3 H0 H1 H2 H3) as Hoct.
  unfold v4_octets in Hoct. injection Hoct as -> -> -> ->. exact Hjoin.
Qed.

Lemma ipv4_parse_then_print_witness :
  IPv4Address "10.0.0.5" = Return (Address V4 167772165 None) /\
  address_str (Address V4 167772165 None) = "10.0.0.5" /\
  0 <= 167772165 < 2 ^ 32.
Proof.
  split; [vm_compute; reflexivity|].
  exact (ipv4_parse_then_print "10.0.0.5" (Address V4 167772165 None)
           ltac:(vm_compute; reflexivity)).
Defined.

(** X11. For an IPv4 CIDR string with the full prefix (or no prefix), the
    one host that is pinged and reported is the text written before the
    slash, character for character. *)
Theorem ipv4_single_host_is_the_given_text cidr net :
  ip_network cidr = Return net ->
  net_version net = V4 ->
  _prefixlen net = 32 ->
  sweep_hosts net = [List.hd "" (PyStr.split "/" cidr)].
Proof.
  intros Hnet Hv4 Hfull.
  destruct (ip_network_shape _ _ Hnet) as (_ & _ & Hgiven).
  rewrite Hv4 in Hgiven. simpl in Hgiven.
  destruct (IPv4Address_canonical_aux _ _ Hgiven) as (Hstr & _).
  unfold sweep_hosts, hosts. rewrite Hv4, Hfull. simpl. by rewrite Hstr.
Qed.

Lemma ipv4_single_host_is_the_given_text_witness :
  ip_network "10.0.0.5/32" = Return net_10_0_0_5_32 /\
  net_version net_10_0_0_5_32 = V4 /\
  _prefixlen net_10_0_0_5_32 = 32 /\
  sweep_hosts net_10_0_0_5_32 = ["10.0.0.5"].
Proof.
  split; [vm_compute; reflexivity|]. split; [reflexivity|]. split; [reflexivity|].
  exact (ipv4_single_host_is_the_given_text "10.0.0.5/32" net_10_0_0_5_32
           ltac:(vm_compute; reflexivity) eq_refl eq_refl).
Defined.

(** ** The result depends on the schedule through the yield order only *)

(** X12. Two finished executions of the same sweep in which
    [as_completed] yields the probes in the same order return the same
    list and leave the same log, however their other steps interleave;
    they have made the same calls of [subprocess.run], in an order that
    may differ. *)
Theorem same_yield_order_same_outcome env cidr net threads timeout_ms quiet
    sched1 sched2 out1 out2 :
  ip_network cidr = Return net -> 1 <= threads ->
  sweep_network env cidr threads timeout_ms quiet sched1 = Some out1 ->
  sweep_network env cidr threads timeout_ms quiet sched2 = Some out2 ->
  yields sched1 = yields sched2 ->
  sweep_value out1 = sweep_value out2 /\
  sweep_log out1 = sweep_log out2 /\
  sweep_calls out1 ≡ₚ sweep_calls out2.
Proof.
  intros Hnet Hth Hout1 Hout2 Hy.
  destruct (sweep_network_log _ _ _ _ _ _ _ _ Hnet Hth Hout1) as (_ & Hv1 & Hl1).
  destruct (sweep_network_log _ _ _ _ _ _ _ _ Hnet Hth Hout2) as (_ & Hv2 & Hl2).
  split; [by rewrite Hv1, Hv2, Hy|]. split; [by rewrite Hl1, Hl2, Hy|].
  destruct (sweep_network_valid _ _ _ _ _ _ _ _ Hnet Hth Hout1)
    as (st1 & Hrun1 & Hend1 & ->).
  destruct (sweep_network_valid _ _ _ _ _ _ _ _ Hnet Hth Hout2)
    as (st2 & Hrun2 & Hend2 & ->).
  pose proof (run_Inv env timeout_ms quiet cidr _ threads Hth _ _ Hrun1) as HI1.
  pose proof (run_Inv env timeout_ms quiet cidr _ threads Hth _ _ Hrun2) as HI2.
  destruct (Inv_all_yielded _ _ _ _ _ _ _ _ HI1 Hend1) as (_ & _ & _ & _ & Hs1).
  destruct (Inv_all_yielded _ _ _ _ _ _ _ _ HI2 Hend2) as (_ & _ & _ & _ & Hs2).
  cbn [sweep_calls]. by rewrite Hs1, Hs2.
Qed.

Lemma same_yield_order_same_outcome_witness :
  ip_network "192.168.1.0/30" = Return net_192_168_1_0_30 /\
  1 <= 2 /\
  yields [Submit; Submit; WorkerGet; WorkerGet; WorkerCall 1; WorkerCall 0;
          WorkerDone 0; WorkerDone 1; Yield 1; Yield 0]%nat
    = yields reversed_schedule /\
  (sweep_calls <$> sweep_network env_all_up "192.168.1.0/30" 2 300 false
     [Submit; Submit; WorkerGet; WorkerGet; WorkerCall 1; WorkerCall 0;
      WorkerDone 0; WorkerDone 1; Yield 1; Yield 0]%nat)
    = Some [["ping"; "-c"; "1"; "-W"; "1"; "192.168.1.2"];
            ["ping"; "-c"; "1"; "-W"; "1"; "192.168.1.1"]] /\
  (sweep_calls <$> sweep_network env_all_up "192.168.1.0/30" 2 300 false
                                   reversed_schedule)
    = Some [["ping"; "-c"; "1"; "-W"; "1"; "192.168.1.1"];
            ["ping"; "-c"; "1"; "-W"; "1"; "192.168.1.2"]] /\
  forall out1 out2,
    sweep_network env_all_up "192.168.1.0/30" 2 300 false
      [Submit; Submit; WorkerGet; WorkerGet; WorkerCall 1; WorkerCall 0;
       WorkerDone 0; WorkerDone 1; Yield 1; Yield 0]%nat = Some out1 ->
    sweep_network env_all_up "192.168.1.0/30" 2 300 false reversed_schedule
      = Some out2 ->
    sweep_value out1 = sweep_value out2 /\
    sweep_log out1 = sweep_log out2 /\
    sweep_calls out1 ≡ₚ sweep_calls out2.
Proof.
  split; [vm_compute; reflexivity|]. split; [lia|]. split; [reflexivity|].
  split; [vm_compute; reflexivity|]. split; [vm_compute; reflexivity|].
  intros out1 out2 E1 E2.
  exact (same_yield_order_same_outcome env_all_up "192.168.1.0/30"
           net_192_168_1_0_30 2 300 false _ _ out1 out2
           ltac:(vm_compute; reflexivity) ltac:(lia) E1 E2 eq_refl).
Defined.

(** ** Worker threads are started on demand *)

Lemma on_demand_step env timeout_ms quiet (n0 : nat) st st' a :
  step env timeout_ms quiet st a = Some st' ->
  (_threads st <= submitted st)%nat /\
  (submitted st + length (to_submit st) = n0)%nat /\
  (length (_work_queue st) + length (taken st) + length (in_flight st)
   <= submitted st)%nat ->
  (_threads st' <= submitted st')%nat /\
  (submitted st' + length (to_submit st') = n0)%nat /\
  (length (_work_queue st') + length (taken st') + length (in_flight st')
   <= submitted st')%nat.
Proof.
  destruct st as [mw q sem th held run dn pend n futs res lg sp].
  destruct a as [| |f|f|f]; simpl.
  - destruct pend as [|ip rest]; [done|].
    destruct sem; [destruct (Z.of_nat th <? mw)|]; intros [= <-]; simpl;
      rewrite length_app; simpl; lia.
  - destruct (decide _); [|done]. destruct q as [|[f ip] q]; [done|].
    intros [= <-]. simpl. rewrite length_app. simpl. lia.
  - destruct (take_item f held) as [[ip rest]|] eqn:Ht; simpl; [|done].
    intros [= <-]. simpl. pose proof (take_item_length _ _ _ _ Ht).
    rewrite length_app. simpl. lia.
  - destruct (take_item f run) as [[ip rest]|] eqn:Ht; simpl; [|done].
    intros [= <-]. simpl. pose proof (take_item_length _ _ _ _ Ht). lia.
  - destruct pend; [|done].
    destruct (take_item f dn) as [[r rest]|]; simpl; [|done].
    destruct (futs !! f) as [ip|]; simpl; [|done].
    destruct (loop_body quiet ip r). intros [= <-]. simpl. lia.
Qed.

(** X13. The pool starts worker threads on demand: in every state an
    execution passes through, the number of worker threads is at most the
    number of probes submitted so far, hence at most the number of hosts,
    whatever the configured thread count. *)
Theorem workers_started_on_demand env cidr hosts threads timeout_ms quiet sched st :
  run env timeout_ms quiet (initial_state cidr hosts threads) sched = Some st ->
  (_threads st <= submitted st)%nat /\
  (submitted st <= length hosts)%nat /\
  (_threads st <= length hosts)%nat.
Proof.
  intros Hrun.
  assert (HJ : (_threads st <= submitted st)%nat /\
               (submitted st + length (to_submit st) = length hosts)%nat /\
               (length (_work_queue st) + length (taken st) + length (in_flight st)
                <= submitted st)%nat).
  { revert st Hrun. induction sched as [|a sched IH] using rev_ind; intros st Hrun.
    - injection Hrun as <-. simpl. lia.
    - rewrite run_snoc in Hrun.
      destruct (run env timeout_ms quiet (initial_state cidr hosts threads) sched)
        as [s|]; simpl in Hrun; [|done].
      eapply on_demand_step; [exact Hrun|]. by apply IH. }
  lia.
Qed.

Lemma workers_started_on_demand_witness :
  run env_all_up 300 false
      (initial_state "10.0.0.5/32" ["10.0.0.5"] 32) [Submit; WorkerGet; WorkerCall 0]
  = Some (SweepState 32 [] 0 1 [] [(0%nat, "10.0.0.5")] [] [] 1
            (<[0%nat := "10.0.0.5"]> ∅) []
            [start_record "10.0.0.5/32" ["10.0.0.5"] 32]
            [["ping"; "-c"; "1"; "-W"; "1"; "10.0.0.5"]]) /\
  (1 <= length ["10.0.0.5"])%nat.
Proof.
  assert (Hrun :
    run env_all_up 300 false
        (initial_state "10.0.0.5/32" ["10.0.0.5"] 32)
        [Submit; WorkerGet; WorkerCall 0]
    = Some (SweepState 32 [] 0 1 [] [(0%nat, "10.0.0.5")] [] [] 1
              (<[0%nat := "10.0.0.5"]> ∅) []
              [start_record "10.0.0.5/32" ["10.0.0.5"] 32]
              [["ping"; "-c"; "1"; "-W"; "1"; "10.0.0.5"]]))
    by reflexivity.
  split; [exact Hrun|].
  exact (proj2 (proj2 (workers_started_on_demand env_all_up "10.0.0.5/32"
                         ["10.0.0.5"] 32 300 false _ _ Hrun))).
Defined.

(** ** Netmask notations *)

Lemma mask_texts_ok_all p : 0 <= p <= 32 -> mask_texts_ok p = true.
Proof.
  intros Hp.
  assert (Hall : forallb (fun i => mask_texts_ok (Z.of_nat i)) (seq 0 33) = true)
    by (vm_compute; reflexivity).
  rewrite forallb_forall in Hall.
  specialize (Hall (Z.to_nat p)). rewrite Z2Nat.id in Hall by lia.
  apply Hall. apply in_seq. lia.
Qed.

Lemma mask_text_means_spec m p :
  mask_text_means m p = true ->
  PyStr.contains "/" m = false /\
  _make_netmask V4 (MaskStr m) = Return (_ip_int_from_prefix V4 p, p).
Proof.
  unfold mask_text_means. intros [Hs Hm]%andb_true_iff.
  apply negb_true_iff in Hs. split; [done|].
  destruct (_make_netmask V4 (MaskStr m)) as [[nm q]|]; [|done].
  apply andb_true_iff in Hm as [->%Z.eqb_eq ->%Z.eqb_eq]. done.
Qed.

Lemma IPv4Network_with_mask a addr m p :
  IPv4Address a = Return addr ->
  mask_text_means m p = true ->
  ip_network (a +:+ String "/" m) =
  Return (Network V4
            (if negb (Z.land (_ip addr) (_ip_int_from_prefix V4 p) =? _ip addr)
             then Address V4 (Z.land (_ip addr) (_ip_int_from_prefix V4 p)) None
             else addr)
            (_ip_int_from_prefix V4 p) p addr).
Proof.
  intros Ha [Hs Hm]%mask_text_means_spec.
  assert (Hslash : PyStr.contains "/" a = false).
  { unfold IPv4Address in Ha. by destruct (PyStr.contains "/" a). }
  unfold ip_network, IPvNetwork, _split_addr_prefix, _split_optional_netmask.
  rewrite split_app_sep, split_no_sep by done. simpl.
  rewrite Ha. simpl. rewrite Hm. simpl. done.
Qed.

(** X14. For IPv4 the mask after the slash may be written as a prefix
    length, as a dotted netmask or as a dotted hostmask: for every valid
    address text and every prefix length [p] from 0 to 32,
    ["a/<netmask of p>"] denotes the same network as ["a/p"], and so does
    ["a/<hostmask of p>"] when [p] is from 1 to 31. *)
Theorem dotted_masks_denote_prefix_lengths a addr p :
  IPv4Address a = Return addr ->
  0 <= p <= 32 ->
  ip_network (a +:+ String "/" (netmask_text p)) =
  ip_network (a +:+ String "/" (PyStr.decimal p)) /\
  (1 <= p <= 31 ->
   ip_network (a +:+ String "/" (hostmask_text p)) =
   ip_network (a +:+ String "/" (PyStr.decimal p))) /\
  exists net, ip_network (a +:+ String "/" (PyStr.decimal p)) = Return net /\
              _prefixlen net = p /\ addr_given net = addr.
Proof.
  intros Ha Hp. pose proof (mask_texts_ok_all p Hp) as Hok.
  unfold mask_texts_ok in Hok.
  apply andb_true_iff in Hok as [Hok Hhost].
  apply andb_true_iff in Hok as [Hstr Hnm].
  rewrite (IPv4Network_with_mask a addr _ p Ha Hstr).
  rewrite (IPv4Network_with_mask a addr _ p Ha Hnm).
  split; [done|]. split; [|eauto].
  intros Hp'.
  destruct (Z.leb_spec 1 p), (Z.leb_spec p 31); try lia. simpl in Hhost.
  by rewrite (IPv4Network_with_mask a addr _ p Ha Hhost).
Qed.

Lemma dotted_masks_denote_prefix_lengths_witness :
  IPv4Address "192.168.1.0" = Return (Address V4 3232235776 None) /\
  0 <= 30 <= 32 /\
  netmask_text 30 = "255.255.255.252" /\
  hostmask_text 30 = "0.0.0.3" /\
  ip_network "192.168.1.0/255.255.255.252" = ip_network "192.168.1.0/30" /\
  ip_network "192.168.1.0/0.0.0.3" = ip_network "192.168.1.0/30".
Proof.
  destruct (dotted_masks_denote_prefix_lengths "192.168.1.0"
              (Address V4 3232235776 None) 30
              ltac:(vm_compute; reflexivity) ltac:(lia)) as (Hnm & Hhm & _).
  split; [vm_compute; reflexivity|]. split; [lia|].
  split; [vm_compute; reflexivity|]. split; [vm_compute; reflexivity|].
  split; [exact Hnm|exact (Hhm ltac:(lia))].
Defined.

(** ** The commands [main] runs *)

(** X15. Every command line [main] hands to [subprocess.run] on a valid
    range is a ping of one host of the range with a count of one and a
    timeout of at least one unit: on Windows [-w] carries
    [max(1, timeout)] milliseconds, elsewhere [-W] carries a number of
    seconds that is at least 1 and covers [max(1, timeout)] milliseconds.
    No ping is run with a zero or negative timeout, whatever the
    arguments. *)
Theorem main_starts_only_timed_pings_of_hosts env args net sched out cmd :
  ip_network (arg_network args) = Return net ->
  main env args sched = Some out ->
  cmd ∈ main_calls out ->
  let requested := Z.max 1 (arg_timeout args) in
  exists ip k,
    ip ∈ sweep_hosts net /\ 1 <= k /\
    if String.eqb (platform_system env) "Windows"
    then cmd = ["ping"; "-n"; "1"; "-w"; PyStr.decimal k; ip] /\ k = requested
    else cmd = ["ping"; "-c"; "1"; "-W"; PyStr.decimal k; ip] /\
         requested <= 1000 * k < requested + 1000.
Proof.
  intros Hnet Hmain Hcmd requested.
  unfold main in Hmain.
  destruct (sweep_network env (arg_network args) (Z.max 1 (arg_threads args))
              (Z.max 1 (arg_timeout args)) (arg_quiet args) sched)
    as [o|] eqn:Hsweep; simpl in Hmain; [|done].
  assert (Hth : 1 <= Z.max 1 (arg_threads args)) by lia.
  pose proof (sweep_network_calls _ _ _ _ _ _ _ _ Hnet Hth Hsweep) as Hsp.
  assert (Hspawned : main_calls out = sweep_calls o).
  { destruct (sweep_value o) as [res|e]; [|destruct e]; by injection Hmain as <-. }
  rewrite Hspawned, Hsp in Hcmd.
  apply list_elem_of_bind in Hcmd as (ip & Hcmd%elem_of_probe_calls & Hip).
  fold requested in Hcmd. unfold get_ping_command in Hcmd.
  destruct (String.eqb (platform_system env) "Windows").
  - destruct (PyStr.str requested) as [w|] eqn:Hw; simpl in Hcmd; [|done].
    injection Hcmd as <-. apply str_Return in Hw as ->.
    exists ip, requested. split; [done|]. split; [lia|done].
  - destruct (PyStr.str (Z.max 1 ((requested + 999) / 1000))) as [w|] eqn:Hw;
      simpl in Hcmd; [|done].
    injection Hcmd as <-. apply str_Return in Hw as ->.
    exists ip, (Z.max 1 ((requested + 999) / 1000)). split; [done|]. split; [lia|].
    split; [done|].
    pose proof (Z.div_mod (requested + 999) 1000 ltac:(lia)).
    pose proof (Z.mod_pos_bound (requested + 999) 1000 ltac:(lia)).
    lia.
Qed.

Lemma main_starts_only_timed_pings_of_hosts_witness :
  ip_network (arg_network (Namespace "192.168.1.0/30" 2 0 true))
    = Return net_192_168_1_0_30 /\
  (main_calls <$> main env_all_up (Namespace "192.168.1.0/30" 2 0 true)
                         in_order_schedule)
    = Some [["ping"; "-c"; "1"; "-W"; "1"; "192.168.1.1"];
            ["ping"; "-c"; "1"; "-W"; "1"; "192.168.1.2"]] /\
  exists ip k,
    ip ∈ sweep_hosts net_192_168_1_0_30 /\ 1 <= k /\
    ["ping"; "-c"; "1"; "-W"; "1"; "192.168.1.2"]
      = ["ping"; "-c"; "1"; "-W"; PyStr.decimal k; ip] /\
    Z.max 1 0 <= 1000 * k < Z.max 1 0 + 1000.
Proof.
  destruct (main env_all_up (Namespace "192.168.1.0/30" 2 0 true)
                 in_order_schedule) as [out|] eqn:Hmain;
    [|vm_compute in Hmain; discriminate].
  assert (Hsp : main_calls out =
                [["ping"; "-c"; "1"; "-W"; "1"; "192.168.1.1"];
                 ["ping"; "-c"; "1"; "-W"; "1"; "192.168.1.2"]]).
  { vm_compute in Hmain. by injection Hmain as <-. }
  split; [vm_compute; reflexivity|]. split; [simpl; by rewrite Hsp|].
  apply (main_starts_only_timed_pings_of_hosts env_all_up
           (Namespace "192.168.1.0/30" 2 0 true) net_192_168_1_0_30
           in_order_schedule out ["ping"; "-c"; "1"; "-W"; "1"; "192.168.1.2"]
           ltac:(vm_compute; reflexivity) Hmain).
  rewrite Hsp. apply elem_of_cons. right. apply elem_of_cons. by left.
Defined.
